(** * The fbdev video backend of uterm (src/uterm_fbdev_video.c)

    A shallow embedding of the frame-buffer display backend: the display
    and video objects it works on, the kernel frame-buffer interface it
    talks to, and the operations of its [display_ops] and [video_ops]
    tables (activate, deactivate, set_dpms, swap, sleep, wake_up).

    The program is sequential C that threads one display through many
    device calls, most of which can fail and make the function return
    early.  The embedding is therefore written in a small state monad
    with an early-return outcome; the kernel, the allocator and the
    vblank timer are an interface ([Environment]) that every theorem
    quantifies over. *)

From Stdlib Require Import ZArith List Bool Lia String QArith Qround.
Import ListNotations.
Local Open Scope Z_scope.

(** ** C integers *)

(** Conversion to [unsigned int] / [__u32] and to [uint64_t] / [size_t]
    (LP64): the value modulo the width. *)
Definition u32 (x : Z) : Z := x mod 2 ^ 32.
Definition u64 (x : Z) : Z := x mod 2 ^ 64.

Definition is_u32 (x : Z) : Prop := 0 <= x < 2 ^ 32.

(** [errno.h] *)
Definition ENOMEM : Z := 12.
Definition EFAULT : Z := 14.
Definition EINVAL : Z := 22.

(** [linux/fb.h] *)
Definition FB_VISUAL_TRUECOLOR : Z := 2.
Definition FB_ACTIVATE_NOW : Z := 0.
Definition FB_ACTIVATE_VBL : Z := 16.
Definition FB_ACTIVATE_FORCE : Z := 128.
Definition FB_BLANK_UNBLANK : Z := 0.
Definition FB_BLANK_NORMAL : Z := 1.
Definition FB_BLANK_POWERDOWN : Z := 4.

(** ** Flag words

    [disp->flags] and [video->flags] are unsigned words tested with [&],
    set with [|=] and cleared with [&= ~]. *)

Definition test_flag (f m : Z) : bool := negb (Z.land f m =? 0).
Definition set_flag (f m : Z) : Z := Z.lor f m.
Definition clear_flag (f m : Z) : Z := Z.land f (Z.lnot m).

(** A flag constant is a single bit. *)
Definition is_flag (m : Z) : Prop := exists i, 0 <= i /\ m = 2 ^ i.

(** The constants of uterm_video_internal.h and uterm_video.h, which are
    not among the sources: the display and video flag bits, and the values
    of [enum uterm_display_dpms].  They are parameters of the development;
    what the code needs of them is that the flags are distinct single bits
    and that the four [case] labels of [display_set_dpms] are distinct. *)
Class Constants : Type := {
  DISPLAY_ONLINE : Z;
  DISPLAY_DBUF : Z;
  DISPLAY_DITHERING : Z;
  VIDEO_AWAKE : Z;
  UTERM_DPMS_ON : Z;
  UTERM_DPMS_STANDBY : Z;
  UTERM_DPMS_SUSPEND : Z;
  UTERM_DPMS_OFF : Z;
  UTERM_DPMS_UNKNOWN : Z;
  online_is_flag : is_flag DISPLAY_ONLINE;
  dbuf_is_flag : is_flag DISPLAY_DBUF;
  dithering_is_flag : is_flag DISPLAY_DITHERING;
  awake_is_flag : is_flag VIDEO_AWAKE;
  online_dbuf : DISPLAY_ONLINE <> DISPLAY_DBUF;
  online_dithering : DISPLAY_ONLINE <> DISPLAY_DITHERING;
  dbuf_dithering : DISPLAY_DBUF <> DISPLAY_DITHERING;
  dpms_labels : NoDup [UTERM_DPMS_ON; UTERM_DPMS_STANDBY;
                       UTERM_DPMS_SUSPEND; UTERM_DPMS_OFF]
}.

(** ** The kernel's frame-buffer structures (the fields the backend uses) *)

Module fb_bitfield.
Record t : Type := mk { offset : Z; length : Z }.
End fb_bitfield.

Module fb_fix_screeninfo.
Record t : Type := mk { id : string; line_length : Z; visual : Z }.
End fb_fix_screeninfo.

Module fb_var_screeninfo.
Record t : Type := mk {
  xres : Z;
  yres : Z;
  xres_virtual : Z;
  yres_virtual : Z;
  xoffset : Z;
  yoffset : Z;
  bits_per_pixel : Z;
  red : fb_bitfield.t;
  green : fb_bitfield.t;
  blue : fb_bitfield.t;
  activate : Z;
  pixclock : Z;
  left_margin : Z;
  right_margin : Z;
  upper_margin : Z;
  lower_margin : Z
}.

Definition set_xres_virtual (x : Z) (v : t) : t :=
  mk (xres v) (yres v) x (yres_virtual v) (xoffset v) (yoffset v)
     (bits_per_pixel v) (red v) (green v) (blue v) (activate v) (pixclock v)
     (left_margin v) (right_margin v) (upper_margin v) (lower_margin v).

Definition set_yres_virtual (x : Z) (v : t) : t :=
  mk (xres v) (yres v) (xres_virtual v) x (xoffset v) (yoffset v)
     (bits_per_pixel v) (red v) (green v) (blue v) (activate v) (pixclock v)
     (left_margin v) (right_margin v) (upper_margin v) (lower_margin v).

Definition set_xoffset (x : Z) (v : t) : t :=
  mk (xres v) (yres v) (xres_virtual v) (yres_virtual v) x (yoffset v)
     (bits_per_pixel v) (red v) (green v) (blue v) (activate v) (pixclock v)
     (left_margin v) (right_margin v) (upper_margin v) (lower_margin v).

Definition set_yoffset (x : Z) (v : t) : t :=
  mk (xres v) (yres v) (xres_virtual v) (yres_virtual v) (xoffset v) x
     (bits_per_pixel v) (red v) (green v) (blue v) (activate v) (pixclock v)
     (left_margin v) (right_margin v) (upper_margin v) (lower_margin v).

Definition set_bits_per_pixel (x : Z) (v : t) : t :=
  mk (xres v) (yres v) (xres_virtual v) (yres_virtual v) (xoffset v)
     (yoffset v) x (red v) (green v) (blue v) (activate v) (pixclock v)
     (left_margin v) (right_margin v) (upper_margin v) (lower_margin v).

Definition set_activate (x : Z) (v : t) : t :=
  mk (xres v) (yres v) (xres_virtual v) (yres_virtual v) (xoffset v)
     (yoffset v) (bits_per_pixel v) (red v) (green v) (blue v) x (pixclock v)
     (left_margin v) (right_margin v) (upper_margin v) (lower_margin v).

(** Every field holds a [__u32]. *)
Definition wf (v : t) : Prop :=
  is_u32 (xres v) /\ is_u32 (yres v) /\ is_u32 (pixclock v) /\
  is_u32 (left_margin v) /\ is_u32 (right_margin v) /\
  is_u32 (upper_margin v) /\ is_u32 (lower_margin v).
End fb_var_screeninfo.

Definition vinfo_t : Type := fb_var_screeninfo.t.
Definition finfo_t : Type := fb_fix_screeninfo.t.

(** ** The backend's objects *)

(** [struct fbdev_mode]: the backend data of a mode. *)
Record fbdev_mode : Type := { width : Z; height : Z }.

(** [struct uterm_mode]: a reference count and the backend data that
    [mode_init] hangs on it. *)
Record uterm_mode : Type := { mode_ref : Z; mode_data : fbdev_mode }.

(** A live memory mapping of the device: what [mmap] returned and
    [munmap] has not yet released.  The pixel contents are not modelled. *)
Record mapping : Type := { map_len : Z }.

(** [struct fbdev_display].  [node] and [fd] only name the device and are
    left to the environment.  [map] is the live mapping, if any: the C
    field keeps a stale address after [munmap] and holds [MAP_FAILED] after
    a refused [mmap]; both are [None] here. *)
Record fbdev_display : Type := {
  pending_intro : bool;
  finfo : finfo_t;
  vinfo : vinfo_t;
  rate : Z;
  bufid : Z;
  xres : Z;
  yres : Z;
  len : Z;
  map : option mapping;
  stride : Z;
  xrgb32 : bool;
  Bpp : Z;
  off_r : Z;
  len_r : Z;
  off_g : Z;
  len_g : Z;
  off_b : Z;
  len_b : Z;
  dither_r : Z;
  dither_g : Z;
  dither_b : Z
}.

Definition set_finfo (x : finfo_t) (f : fbdev_display) : fbdev_display :=
  {| pending_intro := pending_intro f; finfo := x; vinfo := vinfo f;
     rate := rate f; bufid := bufid f; xres := xres f; yres := yres f;
     len := len f; map := map f; stride := stride f; xrgb32 := xrgb32 f;
     Bpp := Bpp f; off_r := off_r f; len_r := len_r f; off_g := off_g f;
     len_g := len_g f; off_b := off_b f; len_b := len_b f;
     dither_r := dither_r f; dither_g := dither_g f; dither_b := dither_b f |}.

Definition set_vinfo (x : vinfo_t) (f : fbdev_display) : fbdev_display :=
  {| pending_intro := pending_intro f; finfo := finfo f; vinfo := x;
     rate := rate f; bufid := bufid f; xres := xres f; yres := yres f;
     len := len f; map := map f; stride := stride f; xrgb32 := xrgb32 f;
     Bpp := Bpp f; off_r := off_r f; len_r := len_r f; off_g := off_g f;
     len_g := len_g f; off_b := off_b f; len_b := len_b f;
     dither_r := dither_r f; dither_g := dither_g f; dither_b := dither_b f |}.

Definition set_rate (x : Z) (f : fbdev_display) : fbdev_display :=
  {| pending_intro := pending_intro f; finfo := finfo f; vinfo := vinfo f;
     rate := x; bufid := bufid f; xres := xres f; yres := yres f;
     len := len f; map := map f; stride := stride f; xrgb32 := xrgb32 f;
     Bpp := Bpp f; off_r := off_r f; len_r := len_r f; off_g := off_g f;
     len_g := len_g f; off_b := off_b f; len_b := len_b f;
     dither_r := dither_r f; dither_g := dither_g f; dither_b := dither_b f |}.

Definition set_bufid (x : Z) (f : fbdev_display) : fbdev_display :=
  {| pending_intro := pending_intro f; finfo := finfo f; vinfo := vinfo f;
     rate := rate f; bufid := x; xres := xres f; yres := yres f;
     len := len f; map := map f; stride := stride f; xrgb32 := xrgb32 f;
     Bpp := Bpp f; off_r := off_r f; len_r := len_r f; off_g := off_g f;
     len_g := len_g f; off_b := off_b f; len_b := len_b f;
     dither_r := dither_r f; dither_g := dither_g f; dither_b := dither_b f |}.

Definition set_map (x : option mapping) (f : fbdev_display) : fbdev_display :=
  {| pending_intro := pending_intro f; finfo := finfo f; vinfo := vinfo f;
     rate := rate f; bufid := bufid f; xres := xres f; yres := yres f;
     len := len f; map := x; stride := stride f; xrgb32 := xrgb32 f;
     Bpp := Bpp f; off_r := off_r f; len_r := len_r f; off_g := off_g f;
     len_g := len_g f; off_b := off_b f; len_b := len_b f;
     dither_r := dither_r f; dither_g := dither_g f; dither_b := dither_b f |}.

(** [struct uterm_display].  [video] tells whether [disp->video] is
    non-null; when it is, it points to the one video object of the
    backend.  [modes] is the [next]-linked list headed by [disp->modes]. *)
Record uterm_display : Type := {
  flags : Z;
  video : bool;
  modes : list uterm_mode;
  current_mode : option uterm_mode;
  dpms : Z;
  data : fbdev_display
}.

Definition set_flags (x : Z) (d : uterm_display) : uterm_display :=
  {| flags := x; video := video d; modes := modes d;
     current_mode := current_mode d; dpms := dpms d; data := data d |}.

Definition set_modes (x : list uterm_mode) (d : uterm_display) : uterm_display :=
  {| flags := flags d; video := video d; modes := x;
     current_mode := current_mode d; dpms := dpms d; data := data d |}.

Definition set_current_mode (x : option uterm_mode) (d : uterm_display)
  : uterm_display :=
  {| flags := flags d; video := video d; modes := modes d;
     current_mode := x; dpms := dpms d; data := data d |}.

Definition set_dpms (x : Z) (d : uterm_display) : uterm_display :=
  {| flags := flags d; video := video d; modes := modes d;
     current_mode := current_mode d; dpms := x; data := data d |}.

Definition set_data (x : fbdev_display) (d : uterm_display) : uterm_display :=
  {| flags := flags d; video := video d; modes := modes d;
     current_mode := current_mode d; dpms := dpms d; data := x |}.

(** [struct uterm_video]: its flag word and [video->displays], the one
    display of an fbdev video object. *)
Record uterm_video : Type := { video_flags : Z; displays : uterm_display }.

(** ** Calls that leave the program

    Every call to the kernel, to the allocator behind [mode_new] and to
    the vblank timer of uterm_video.c is recorded, newest first.  So is
    the one store that can leave the memory of the program: [DeadStore]
    is a [memset] through [fbdev->map] while that pointer is no live
    mapping. *)
Inductive call : Type :=
| FBIOGET_FSCREENINFO
| FBIOGET_VSCREENINFO
| FBIOPUT_VSCREENINFO (v : vinfo_t)
| FBIOBLANK (arg : Z)
| Mmap (length : Z)
| DeadStore
| Munmap
| ModeNew
| ModeUnref
| SetVblankTimer (msecs : Z)
| ScheduleVblankTimer.

(** The environment of the backend.  [World] is whatever state the
    kernel driver, the allocator and the event loop keep; every call may
    change it.  An ioctl answers [None] when it fails (returns -1) and, for
    the three that fill a structure, [Some] of what the kernel wrote into
    it when it succeeds (returns 0).  [display_set_vblank_timer] and
    [display_schedule_vblank_timer] are functions of uterm_video.c, which
    is not among the sources. *)
Class Environment (World : Type) : Type := {
  ioctl_get_fscreeninfo : World -> World * option finfo_t;
  ioctl_get_vscreeninfo : World -> World * option vinfo_t;
  ioctl_put_vscreeninfo : vinfo_t -> World -> World * option vinfo_t;
  ioctl_blank : Z -> World -> World * bool;
  sys_mmap : Z -> World -> World * bool;
  sys_malloc : World -> World * bool;
  display_set_vblank_timer : Z -> World -> World;
  display_schedule_vblank_timer : World -> World * Z
}.

Definition nonzero (z : Z) : bool := negb (z =? 0).

Section Backend.

Context {World : Type} {env : Environment World} {consts : Constants}.

(** ** Program state

    The video object with its display, the environment, and the record of
    the calls made so far. *)
Record state : Type := {
  uvideo : uterm_video;
  world : World;
  trace : list call
}.

Definition disp (s : state) : uterm_display := displays (uvideo s).
Definition fbdev (s : state) : fbdev_display := data (disp s).

Definition set_world (w : World) (s : state) : state :=
  {| uvideo := uvideo s; world := w; trace := trace s |}.

Definition log (c : call) (s : state) : state :=
  {| uvideo := uvideo s; world := world s; trace := c :: trace s |}.

Definition set_video_flags (x : Z) (s : state) : state :=
  {| uvideo := {| video_flags := x; displays := disp s |};
     world := world s; trace := trace s |}.

Definition upd_disp (f : uterm_display -> uterm_display) (s : state) : state :=
  {| uvideo := {| video_flags := video_flags (uvideo s);
                  displays := f (disp s) |};
     world := world s; trace := trace s |}.

Definition upd_fbdev (f : fbdev_display -> fbdev_display) : state -> state :=
  upd_disp (fun d => set_data (f (data d)) d).

Definition upd_vinfo (f : vinfo_t -> vinfo_t) : state -> state :=
  upd_fbdev (fun b => set_vinfo (f (vinfo b)) b).

Definition upd_flags (f : Z -> Z) : state -> state :=
  upd_disp (fun d => set_flags (f (flags d)) d).

(** ** A state monad with early return

    A computation either goes on with a value ([Next]) or has executed a
    C [return] with a code ([Return]), which ends the enclosing function. *)
Inductive flow (A : Type) : Type :=
| Next (a : A)
| Return (code : Z).
Arguments Next {A} a.
Arguments Return {A} code.

Definition M (A : Type) : Type := state -> state * flow A.

Definition ret {A} (a : A) : M A := fun s => (s, Next a).

Definition bind {A B} (m : M A) (k : A -> M B) : M B :=
  fun s =>
    match m s with
    | (s', Next a) => k a s'
    | (s', Return c) => (s', Return c)
    end.

Definition return_ {A} (c : Z) : M A := fun s => (s, Return c).

Definition gets {A} (f : state -> A) : M A := fun s => (s, Next (f s)).

Definition modify (f : state -> state) : M unit := fun s => (f s, Next tt).

Definition when (c : bool) (m : M unit) : M unit := if c then m else ret tt.

(** Running a function body: falling off the end and [return] both hand
    the code to the caller. *)
Definition exec (m : M Z) : state -> state * Z :=
  fun s =>
    match m s with
    | (s', Next r) => (s', r)
    | (s', Return r) => (s', r)
    end.

(** The body of a [void] function. *)
Definition exec_void (m : M unit) : state -> state := fun s => fst (m s).

(** Calling a function from inside another one. *)
Definition invoke (f : state -> state * Z) : M Z :=
  fun s => let (s', r) := f s in (s', Next r).

Definition invoke_void (f : state -> state) : M unit :=
  fun s => (f s, Next tt).

Notation "x <- m ;; k" := (bind m (fun x => k))
  (at level 61, m at next level, right associativity).
Notation "m ;; k" := (bind m (fun _ => k))
  (at level 61, right associativity).

(** ** System calls on the device *)

Definition ioctl_FBIOGET_FSCREENINFO : M Z := fun s =>
  let (w, r) := ioctl_get_fscreeninfo (world s) in
  let s1 := log FBIOGET_FSCREENINFO (set_world w s) in
  match r with
  | Some fi => (upd_fbdev (set_finfo fi) s1, Next 0)
  | None => (s1, Next (-1))
  end.

Definition ioctl_FBIOGET_VSCREENINFO : M Z := fun s =>
  let (w, r) := ioctl_get_vscreeninfo (world s) in
  let s1 := log FBIOGET_VSCREENINFO (set_world w s) in
  match r with
  | Some vi => (upd_fbdev (set_vinfo vi) s1, Next 0)
  | None => (s1, Next (-1))
  end.

(** [ioctl(fbdev->fd, FBIOPUT_VSCREENINFO, &fbdev->vinfo)]: the kernel
    reads the structure and, when it accepts it, writes back what it
    applied. *)
Definition ioctl_FBIOPUT_VSCREENINFO : M Z := fun s =>
  let v := vinfo (fbdev s) in
  let (w, r) := ioctl_put_vscreeninfo v (world s) in
  let s1 := log (FBIOPUT_VSCREENINFO v) (set_world w s) in
  match r with
  | Some vi => (upd_fbdev (set_vinfo vi) s1, Next 0)
  | None => (s1, Next (-1))
  end.

Definition ioctl_FBIOBLANK (arg : Z) : M Z := fun s =>
  let (w, ok) := ioctl_blank arg (world s) in
  (log (FBIOBLANK arg) (set_world w s), Next (if ok then 0 else -1)).

(** [fbdev->map = mmap(0, len, PROT_WRITE, MAP_SHARED, fbdev->fd, 0)];
    the answer tells whether the result differs from [MAP_FAILED]. *)
Definition mmap (length : Z) : M bool := fun s =>
  let (w, ok) := sys_mmap length (world s) in
  let s1 := log (Mmap length) (set_world w s) in
  (upd_fbdev (set_map (if ok then Some {| map_len := length |} else None)) s1,
   Next ok).

(** [memset(fbdev->map, 0, fbdev->len)], lines 283 and 349.  The pixels
    are not modelled, so clearing a live mapping leaves nothing to record.
    When [fbdev->map] is no live mapping (the address that an earlier
    [munmap] released, or [MAP_FAILED]) the store goes through a dead
    pointer and the behaviour of the C program is undefined: the model
    records [DeadStore] and goes on, so that the runs in which this
    happened can be told from the others by their record of calls. *)
Definition through_map (s : state) : state :=
  match map (fbdev s) with
  | Some _ => s
  | None => log DeadStore s
  end.

Definition memset : M unit := modify through_map.

(** [munmap(fbdev->map, fbdev->len)]: no mapping is live afterwards. *)
Definition munmap : M unit :=
  modify (fun s => upd_fbdev (set_map None) (log Munmap s)).

Definition malloc : M bool := fun s =>
  let (w, ok) := sys_malloc (world s) in (set_world w s, Next ok).
(** ** Modes (lines 46-89) *)

(** [mode_init]: the backend data of a new mode is allocated and zeroed. *)
Definition mode_init : M (Z * option fbdev_mode) :=
  ok <- malloc ;;
  if negb ok then ret (- ENOMEM, None)
  else ret (0, Some {| width := 0; height := 0 |}).

Definition mode_get_width (mode : uterm_mode) : Z := width (mode_data mode).
Definition mode_get_height (mode : uterm_mode) : Z := height (mode_data mode).

(** Modelled from the spec: [mode_new] and [uterm_mode_unref] belong to
    uterm_video.c, which is not among the sources.  The spec has
    activation create one Mode record through the backend's mode table,
    and deactivation drop it: [mode_new] allocates the mode with one
    reference and runs the table's [init] ([mode_init]) on it, failing
    when either allocation fails; [uterm_mode_unref] gives a reference
    back. *)
Definition mode_new : M (Z * option uterm_mode) :=
  modify (log ModeNew) ;;
  ok <- malloc ;;
  if negb ok then ret (- ENOMEM, None)
  else
    r <- mode_init ;;
    match r with
    | (_, Some d) => ret (0, Some {| mode_ref := 1; mode_data := d |})
    | (e, None) => ret (e, None)
    end.

Definition uterm_mode_unref : M unit := modify (log ModeUnref).

(** A local pointer to the backend data of a mode: either it was never
    assigned, or it points into the mode at the head of [disp->modes]. *)
Inductive mode_data_ptr : Type :=
| Unassigned
| HeadOfModes.

(** [p->width = w; p->height = h].  Only a pointer that was made to point
    into a mode of the display changes that mode. *)
Definition store_mode_size (p : mode_data_ptr) (w h : Z) (d : uterm_display)
  : uterm_display :=
  match p, modes d with
  | HeadOfModes, m :: ms =>
      set_modes ({| mode_ref := mode_ref m;
                    mode_data := {| width := w; height := h |} |} :: ms) d
  | _, _ => d
  end.

(** Modelled from the spec: [video_is_awake] is an inline function of
    uterm_video_internal.h, which is not among the sources.  The awake
    flag of the spec is the [VIDEO_AWAKE] bit that [video_sleep] and
    [video_wake_up] clear and set. *)
Definition video_is_awake (s : state) : bool :=
  test_flag (video_flags (uvideo s)) VIDEO_AWAKE.

(** ** [refresh_info] (lines 91-109) *)
Definition refresh_info : state -> state * Z := exec (
  r <- ioctl_FBIOGET_FSCREENINFO ;;
  when (nonzero r) (return_ (- EFAULT)) ;;
  r <- ioctl_FBIOGET_VSCREENINFO ;;
  when (nonzero r) (return_ (- EFAULT)) ;;
  ret 0).

(** ** The rate model (lines 246-266) *)

(** [quot]: a [uint64_t] that starts from the vertical sum, computed in
    [__u32], and is multiplied by the horizontal sum and the pixel clock. *)
Definition monitor_quot (v : vinfo_t) : Z :=
  let quot :=
    u32 (u32 (fb_var_screeninfo.upper_margin v
              + fb_var_screeninfo.lower_margin v)
         + fb_var_screeninfo.yres v) in
  let quot :=
    u64 (quot * u32 (u32 (fb_var_screeninfo.left_margin v
                          + fb_var_screeninfo.right_margin v)
                     + fb_var_screeninfo.xres v)) in
  u64 (quot * fb_var_screeninfo.pixclock v).

(** [fbdev->rate], an [unsigned int] in milli-Hertz, after the clamping. *)
Definition monitor_rate (v : vinfo_t) : Z :=
  let quot := monitor_quot v in
  let rate :=
    if nonzero quot then u32 (1000000000000000 / quot) else 60 * 1000 in
  if rate =? 0 then 1
  else if 200000 <? rate then 200000
  else rate.

(** [val = 1000000 / fbdev->rate] *)
Definition vblank_msecs (rate : Z) : Z := u32 (1000000 / rate).

(** ** [display_activate_force] (lines 111-328) *)

Definition depths : list Z := [32; 16; 0].

(** The loop of lines 195-210 over what is left of [depths], which a 0
    ends: [continue] when the device refuses the depth, [return] when the
    parameters cannot be read back, [break] once the visual is
    true-color. *)
Fixpoint try_depths (ds : list Z) : M unit :=
  match ds with
  | [] => ret tt
  | d :: ds' =>
      if d =? 0 then ret tt
      else
        modify (upd_vinfo (fb_var_screeninfo.set_bits_per_pixel d)) ;;
        modify (upd_vinfo (fb_var_screeninfo.set_activate
                             (Z.lor FB_ACTIVATE_NOW FB_ACTIVATE_FORCE))) ;;
        r <- ioctl_FBIOPUT_VSCREENINFO ;;
        if r <? 0 then try_depths ds'
        else
          r <- invoke refresh_info ;;
          when (nonzero r) (return_ r) ;;
          visual <- gets (fun s => fb_fix_screeninfo.visual (finfo (fbdev s))) ;;
          if visual =? FB_VISUAL_TRUECOLOR then ret tt
          else try_depths ds'
  end.

(** Lines 140-166: read the parameters, reset the offsets, ask for a
    virtual buffer of twice the height, and take that request back for
    every device. *)
Definition request_buffers : M unit :=
  r <- invoke refresh_info ;;
  when (nonzero r) (return_ r) ;;
  modify (upd_vinfo (fb_var_screeninfo.set_xoffset 0)) ;;
  modify (upd_vinfo (fb_var_screeninfo.set_yoffset 0)) ;;
  modify (upd_vinfo (fb_var_screeninfo.set_activate
                       (Z.lor FB_ACTIVATE_NOW FB_ACTIVATE_FORCE))) ;;
  modify (upd_vinfo (fun v =>
    fb_var_screeninfo.set_xres_virtual (fb_var_screeninfo.xres v) v)) ;;
  modify (upd_vinfo (fun v =>
    fb_var_screeninfo.set_yres_virtual (u32 (fb_var_screeninfo.yres v * 2)) v)) ;;
  modify (upd_flags (fun f => set_flag f DISPLAY_DBUF)) ;;
  id <- gets (fun s => fb_fix_screeninfo.id (finfo (fbdev s))) ;;
  when (true || (id =? "udlfb")%string) (
    modify (upd_flags (fun f => clear_flag f DISPLAY_DBUF)) ;;
    modify (upd_vinfo (fun v =>
      fb_var_screeninfo.set_yres_virtual (fb_var_screeninfo.yres v) v))).

(** Lines 168-211: apply the request, once more without double buffering
    if the device refuses it, read the parameters back, and go through
    [depths] unless the device already is true-color at 32 bits. *)
Definition apply_and_negotiate : M unit :=
  r <- ioctl_FBIOPUT_VSCREENINFO ;;
  when (nonzero r) (
    modify (upd_flags (fun f => clear_flag f DISPLAY_DBUF)) ;;
    modify (upd_vinfo (fun v =>
      fb_var_screeninfo.set_yres_virtual (fb_var_screeninfo.yres v) v)) ;;
    r <- ioctl_FBIOPUT_VSCREENINFO ;;
    when (nonzero r) (return_ (- EFAULT))) ;;
  r <- invoke refresh_info ;;
  when (nonzero r) (return_ r) ;;
  fi <- gets (fun s => finfo (fbdev s)) ;;
  vi <- gets (fun s => vinfo (fbdev s)) ;;
  when (negb (fb_fix_screeninfo.visual fi =? FB_VISUAL_TRUECOLOR)
        || negb (fb_var_screeninfo.bits_per_pixel vi =? 32))
       (try_depths depths).

(** What lines 222-241 require of the negotiated parameters. *)
Definition format_ok (fi : finfo_t) (vi : vinfo_t) : bool :=
  ((fb_var_screeninfo.bits_per_pixel vi =? 32)
   || (fb_var_screeninfo.bits_per_pixel vi =? 16))
  && (fb_fix_screeninfo.visual fi =? FB_VISUAL_TRUECOLOR)
  && (fb_bitfield.length (fb_var_screeninfo.red vi) <=? 8)
  && (fb_bitfield.length (fb_var_screeninfo.green vi) <=? 8)
  && (fb_bitfield.length (fb_var_screeninfo.blue vi) <=? 8).

(** Lines 222-241.  (Lines 213-220 only log a warning.) *)
Definition check_format : M unit :=
  fi <- gets (fun s => finfo (fbdev s)) ;;
  vi <- gets (fun s => vinfo (fbdev s)) ;;
  when (negb (fb_var_screeninfo.bits_per_pixel vi =? 32)
        && negb (fb_var_screeninfo.bits_per_pixel vi =? 16))
       (return_ (- EFAULT)) ;;
  when (negb (fb_fix_screeninfo.visual fi =? FB_VISUAL_TRUECOLOR))
       (return_ (- EFAULT)) ;;
  when ((8 <? fb_bitfield.length (fb_var_screeninfo.red vi))
        || (8 <? fb_bitfield.length (fb_var_screeninfo.green vi))
        || (8 <? fb_bitfield.length (fb_var_screeninfo.blue vi)))
       (return_ (- EFAULT)).

(** Lines 246-269: the rate is stored and the interval handed to the
    vblank timer. *)
Definition set_monitor_rate : M unit :=
  modify (upd_fbdev (fun b => set_rate (monitor_rate (vinfo b)) b)) ;;
  r <- gets (fun s => rate (fbdev s)) ;;
  modify (fun s =>
    log (SetVblankTimer (vblank_msecs r))
        (set_world (display_set_vblank_timer (vblank_msecs r) (world s)) s)).

(** The fast-path test of lines 300-306 on the recorded layout. *)
Definition xrgb32_layout (b : fbdev_display) : bool :=
  (len_r b =? 8) && (len_g b =? 8) && (len_b b =? 8)
  && (off_r b =? 16) && (off_g b =? 8) && (off_b b =? 0)
  && (Bpp b =? 4).

(** Lines 284-307: the negotiated parameters are recorded. *)
Definition record_region (length : Z) (b : fbdev_display) : fbdev_display :=
  let vi := vinfo b in
  let r :=
    {| pending_intro := pending_intro b; finfo := finfo b; vinfo := vinfo b;
       rate := rate b;
       bufid := 0;
       xres := fb_var_screeninfo.xres vi;
       yres := fb_var_screeninfo.yres vi;
       len := length;
       map := map b;
       stride := fb_fix_screeninfo.line_length (finfo b);
       xrgb32 := false;
       Bpp := fb_var_screeninfo.bits_per_pixel vi / 8;
       off_r := fb_bitfield.offset (fb_var_screeninfo.red vi);
       len_r := fb_bitfield.length (fb_var_screeninfo.red vi);
       off_g := fb_bitfield.offset (fb_var_screeninfo.green vi);
       len_g := fb_bitfield.length (fb_var_screeninfo.green vi);
       off_b := fb_bitfield.offset (fb_var_screeninfo.blue vi);
       len_b := fb_bitfield.length (fb_var_screeninfo.blue vi);
       dither_r := 0; dither_g := 0; dither_b := 0 |} in
  if xrgb32_layout r then
    {| pending_intro := pending_intro r; finfo := finfo r; vinfo := vinfo r;
       rate := rate r; bufid := bufid r; xres := xres r; yres := yres r;
       len := len r; map := map r; stride := stride r; xrgb32 := true;
       Bpp := Bpp r; off_r := off_r r; len_r := len_r r; off_g := off_g r;
       len_g := len_g r; off_b := off_b r; len_b := len_b r;
       dither_r := dither_r r; dither_g := dither_g r;
       dither_b := dither_b r |}
  else r.

(** Lines 271-310. *)
Definition map_buffer : M unit :=
  fi <- gets (fun s => finfo (fbdev s)) ;;
  vi <- gets (fun s => vinfo (fbdev s)) ;;
  fl <- gets (fun s => flags (disp s)) ;;
  let len0 :=
    u32 (fb_fix_screeninfo.line_length fi * fb_var_screeninfo.yres vi) in
  let length := if test_flag fl DISPLAY_DBUF then u64 (len0 * 2) else len0 in
  ok <- mmap length ;;
  when (negb ok) (return_ (- EFAULT)) ;;
  memset ;;
  modify (upd_fbdev (record_region length)) ;;
  modify (upd_flags (fun f => set_flag f DISPLAY_DITHERING)).

(** Lines 312-324.  [fbdev_mode] is declared at line 125 and never
    assigned; lines 321-322 store the resolution through it. *)
Definition attach_mode : M unit :=
  let fbdev_mode := Unassigned in
  cur <- gets (fun s => current_mode (disp s)) ;;
  match cur with
  | Some _ => ret tt
  | None =>
      r <- mode_new ;;
      match r with
      | (_, Some m) =>
          modify (upd_disp (fun d => set_modes (m :: modes d) d)) ;;
          b <- gets fbdev ;;
          modify (upd_disp (store_mode_size fbdev_mode (xres b) (yres b))) ;;
          modify (upd_disp (fun d => set_current_mode (hd_error (modes d)) d))
      | (e, None) => munmap ;; return_ e
      end
  end.

(** The function after its guards: lines 140-211, then lines 213-327. *)
Definition negotiate : M unit :=
  request_buffers ;;
  apply_and_negotiate.

Definition bring_online : M Z :=
  check_format ;;
  set_monitor_rate ;;
  map_buffer ;;
  attach_mode ;;
  modify (upd_flags (fun f => set_flag f DISPLAY_ONLINE)) ;;
  ret 0.

Definition activate_body : M Z :=
  negotiate ;;
  bring_online.

Definition display_activate_force (mode : option uterm_mode) (force : bool)
  : state -> state * Z := exec (
  dv <- gets (fun s => video (disp s)) ;;
  awake <- gets video_is_awake ;;
  when (negb dv || negb awake) (return_ (- EINVAL)) ;;
  fl <- gets (fun s => flags (disp s)) ;;
  when (negb force && test_flag fl DISPLAY_ONLINE) (return_ 0) ;;
  when (match mode with Some _ => true | None => false end)
       (return_ (- EINVAL)) ;;
  activate_body).

Definition display_activate (mode : option uterm_mode)
  : state -> state * Z :=
  display_activate_force mode false.

(** ** [display_deactivate_force] (lines 335-359)

    The guard of line 339 tests the video object and the Online flag, not
    whether [fbdev->map] is live: lines 349-350 go through the pointer as
    it is. *)
Definition display_deactivate_force (force : bool) : state -> state :=
  exec_void (
  dv <- gets (fun s => video (disp s)) ;;
  fl <- gets (fun s => flags (disp s)) ;;
  when (negb dv || negb (test_flag fl DISPLAY_ONLINE)) (return_ 0) ;;
  when (negb force) (
    uterm_mode_unref ;;
    modify (upd_disp (set_modes [])) ;;
    modify (upd_disp (set_current_mode None))) ;;
  memset ;;
  munmap ;;
  when (negb force)
       (modify (upd_flags (fun f => clear_flag f DISPLAY_ONLINE)))).

Definition display_deactivate : state -> state :=
  display_deactivate_force false.

(** ** [display_set_dpms] (lines 361-398) *)

(** The [switch] of lines 369-384: the blanking level of a state, or
    nothing for the [default] label. *)
Definition blank_level (st : Z) : option Z :=
  if st =? UTERM_DPMS_ON then Some FB_BLANK_UNBLANK
  else if st =? UTERM_DPMS_STANDBY then Some FB_BLANK_NORMAL
  else if st =? UTERM_DPMS_SUSPEND then Some FB_BLANK_NORMAL
  else if st =? UTERM_DPMS_OFF then Some FB_BLANK_POWERDOWN
  else None.

Definition display_set_dpms (st : Z) : state -> state * Z := exec (
  dv <- gets (fun s => video (disp s)) ;;
  fl <- gets (fun s => flags (disp s)) ;;
  when (negb dv || negb (test_flag fl DISPLAY_ONLINE)) (return_ (- EINVAL)) ;;
  match blank_level st with
  | None => return_ (- EINVAL)
  | Some set =>
      r <- ioctl_FBIOBLANK set ;;
      when (nonzero r) (return_ (- EFAULT)) ;;
      modify (upd_disp (set_dpms st)) ;;
      ret 0
  end).

(** ** [display_swap] (lines 400-432) *)

Definition schedule_vblank_timer : state -> state * Z := fun s =>
  let (w, r) := display_schedule_vblank_timer (world s) in
  (log ScheduleVblankTimer (set_world w s), r).

Definition display_swap : state -> state * Z := exec (
  dv <- gets (fun s => video (disp s)) ;;
  awake <- gets video_is_awake ;;
  when (negb dv || negb awake) (return_ (- EINVAL)) ;;
  fl <- gets (fun s => flags (disp s)) ;;
  when (negb (test_flag fl DISPLAY_ONLINE)) (return_ (- EINVAL)) ;;
  if negb (test_flag fl DISPLAY_DBUF) then
    r <- invoke schedule_vblank_timer ;;
    return_ r
  else
    modify (upd_vinfo (fb_var_screeninfo.set_activate FB_ACTIVATE_VBL)) ;;
    b <- gets fbdev ;;
    (if bufid b =? 0
     then modify (upd_vinfo (fb_var_screeninfo.set_yoffset (u32 (yres b))))
     else modify (upd_vinfo (fb_var_screeninfo.set_yoffset 0))) ;;
    r <- ioctl_FBIOPUT_VSCREENINFO ;;
    when (nonzero r) (return_ (- EFAULT)) ;;
    modify (upd_fbdev (fun b => set_bufid (Z.lxor (bufid b) 1) b)) ;;
    r <- invoke schedule_vblank_timer ;;
    return_ r).

(** ** [video_sleep] and [video_wake_up] (lines 542-568) *)
Definition video_sleep : state -> state := exec_void (
  vf <- gets (fun s => video_flags (uvideo s)) ;;
  when (negb (test_flag vf VIDEO_AWAKE)) (return_ 0) ;;
  invoke_void (display_deactivate_force true) ;;
  modify (fun s =>
    set_video_flags (clear_flag (video_flags (uvideo s)) VIDEO_AWAKE) s)).

Definition video_wake_up : state -> state * Z := exec (
  vf <- gets (fun s => video_flags (uvideo s)) ;;
  when (test_flag vf VIDEO_AWAKE) (return_ 0) ;;
  modify (fun s =>
    set_video_flags (set_flag (video_flags (uvideo s)) VIDEO_AWAKE) s) ;;
  fl <- gets (fun s => flags (disp s)) ;;
  when (test_flag fl DISPLAY_ONLINE) (
    r <- invoke (display_activate_force None true) ;;
    when (nonzero r) (
      modify (fun s =>
        set_video_flags (clear_flag (video_flags (uvideo s)) VIDEO_AWAKE) s) ;;
      return_ r)) ;;
  ret 0).

(** ** [video_init] (lines 466-518) *)

(** The zeroed [struct fbdev_display] of lines 472-475, with
    [pending_intro] set at line 487. *)
Definition zero_bitfield : fb_bitfield.t := fb_bitfield.mk 0 0.

Definition zero_fbdev : fbdev_display :=
  {| pending_intro := true;
     finfo := fb_fix_screeninfo.mk EmptyString 0 0;
     vinfo := fb_var_screeninfo.mk 0 0 0 0 0 0 0 zero_bitfield zero_bitfield
                zero_bitfield 0 0 0 0 0 0;
     rate := 0; bufid := 0; xres := 0; yres := 0; len := 0; map := None;
     stride := 0; xrgb32 := false; Bpp := 0; off_r := 0; len_r := 0;
     off_g := 0; len_g := 0; off_b := 0; len_b := 0;
     dither_r := 0; dither_g := 0; dither_b := 0 |}.

(** The state in which a successful [video_init] leaves the backend.
    [display_new] belongs to uterm_video.c, which is not among the
    sources: the flag word [dflags] it gives the new display and the flag
    word [vflags] of the video object are left open. *)
Definition video_init (vflags dflags : Z) (w : World) : state :=
  {| uvideo :=
       {| video_flags := vflags;
          displays :=
            {| flags := dflags; video := true; modes := [];
               current_mode := None; dpms := UTERM_DPMS_UNKNOWN;
               data := zero_fbdev |} |};
     world := w;
     trace := [] |}.

(** ** Runs of the backend

    What the owning system may call, in any order. *)
Inductive operation : Type :=
| Activate (mode : option uterm_mode)
| Deactivate
| Present
| SetPower (st : Z)
| Sleep
| WakeUp.

Definition run (o : operation) (s : state) : state :=
  match o with
  | Activate mode => fst (display_activate mode s)
  | Deactivate => display_deactivate s
  | Present => fst (display_swap s)
  | SetPower st => fst (display_set_dpms st s)
  | Sleep => video_sleep s
  | WakeUp => fst (video_wake_up s)
  end.

(** The states a display goes through: it is created Offline by
    [video_init], and then operated. *)
Inductive reachable : state -> Prop :=
| reach_init vflags dflags w :
    test_flag dflags DISPLAY_ONLINE = false ->
    reachable (video_init vflags dflags w)
| reach_run s o : reachable s -> reachable (run o s).

Definition online (s : state) : bool := test_flag (flags (disp s)) DISPLAY_ONLINE.
Definition double_buffered (s : state) : bool :=
  test_flag (flags (disp s)) DISPLAY_DBUF.
Definition mapped (s : state) : bool :=
  match map (fbdev s) with Some _ => true | None => false end.

(** ** Predicates of the properties *)

(** The format that the checks of lines 222-241 let through. *)
Definition supported_format (fi : finfo_t) (vi : vinfo_t) : Prop :=
  (fb_var_screeninfo.bits_per_pixel vi = 16
   \/ fb_var_screeninfo.bits_per_pixel vi = 32)
  /\ fb_fix_screeninfo.visual fi = FB_VISUAL_TRUECOLOR
  /\ fb_bitfield.length (fb_var_screeninfo.red vi) <= 8
  /\ fb_bitfield.length (fb_var_screeninfo.green vi) <= 8
  /\ fb_bitfield.length (fb_var_screeninfo.blue vi) <= 8.

(** The fields of [struct fbdev_display] apart from the two parameter
    snapshots. *)
Definition region (b : fbdev_display) :=
  (pending_intro b, rate b, bufid b, xres b, yres b, len b, map b, stride b,
   xrgb32 b, (Bpp b, off_r b, len_r b, off_g b, len_g b, off_b b, len_b b),
   (dither_r b, dither_g b, dither_b b)).

(** What reading and writing the device parameters leaves alone:
    everything but the snapshots, the display flags, the environment and
    the record of calls. *)
Definition beside_parameters (s : state) :=
  (video_flags (uvideo s), video (disp s), modes (disp s),
   current_mode (disp s), dpms (disp s), region (fbdev s)).

Definition negotiation_frame (s s' : state) : Prop :=
  beside_parameters s' = beside_parameters s
  /\ online s' = online s
  /\ (double_buffered s = false -> double_buffered s' = false).

(** A computation relates the state it ends in to the state it started
    from by [R], on both exits, and only returns codes in [E]. *)
Definition ensures {A} (m : M A) (R : state -> state -> Prop) (E : Z -> Prop)
  : Prop :=
  forall s,
    match m s with
    | (s', Next _) => R s s'
    | (s', Return c) => R s s' /\ E c
    end.

(** What holds of every state the backend goes through. *)
Definition invariant (s : state) : Prop :=
  video (disp s) = true
  /\ (video_is_awake s = true -> mapped s = online s)
  /\ (video_is_awake s = false -> mapped s = false)
  /\ (online s = true -> double_buffered s = false)
  /\ xrgb32 (fbdev s) = xrgb32_layout (fbdev s)
  /\ (video_is_awake s = true -> online s = true ->
      format_ok (finfo (fbdev s)) (vinfo (fbdev s)) = true).

(** What the second half of a successful activation (lines 213-327)
    establishes, from the state [s] that the negotiation left to the
    state [s'] it returns in. *)
Definition brought_online (s s' : state) : Prop :=
  format_ok (finfo (fbdev s)) (vinfo (fbdev s)) = true
  /\ finfo (fbdev s') = finfo (fbdev s)
  /\ vinfo (fbdev s') = vinfo (fbdev s)
  /\ video_flags (uvideo s') = video_flags (uvideo s)
  /\ video (disp s') = video (disp s)
  /\ dpms (disp s') = dpms (disp s)
  /\ online s' = true
  /\ double_buffered s' = double_buffered s
  /\ mapped s' = true
  /\ xrgb32 (fbdev s') = xrgb32_layout (fbdev s')
  /\ xres (fbdev s') = fb_var_screeninfo.xres (vinfo (fbdev s))
  /\ yres (fbdev s') = fb_var_screeninfo.yres (vinfo (fbdev s))
  /\ match current_mode (disp s) with
     | Some m =>
         current_mode (disp s') = Some m /\ modes (disp s') = modes (disp s)
     | None =>
         exists m,
           current_mode (disp s') = Some m
           /\ modes (disp s') = m :: modes (disp s)
           /\ mode_get_width m = 0 /\ mode_get_height m = 0
     end.

(** What a failure of that second half leaves behind. *)
Definition left_offline (s s' : state) : Prop :=
  finfo (fbdev s') = finfo (fbdev s)
  /\ vinfo (fbdev s') = vinfo (fbdev s)
  /\ video_flags (uvideo s') = video_flags (uvideo s)
  /\ video (disp s') = video (disp s)
  /\ dpms (disp s') = dpms (disp s)
  /\ online s' = online s
  /\ double_buffered s' = double_buffered s
  /\ (map (fbdev s') = map (fbdev s) \/ map (fbdev s') = None)
  /\ (xrgb32 (fbdev s) = xrgb32_layout (fbdev s) ->
      xrgb32 (fbdev s') = xrgb32_layout (fbdev s'))
  /\ modes (disp s') = modes (disp s)
  /\ current_mode (disp s') = current_mode (disp s).

(** Line 558: [video->flags |= VIDEO_AWAKE]. *)
Definition awaken (s : state) : state :=
  set_video_flags (set_flag (video_flags (uvideo s)) VIDEO_AWAKE) s.

End Backend.

Arguments state : clear implicits.
Arguments M : clear implicits.
Arguments Next {A} a.
Arguments Return {A} code.

(** ** A concrete device

    The constants as uterm_video_internal.h and uterm_video.h of kmscon
    give them, and a well-behaved 1920x1080 true-color device at 32 bits
    per pixel that accepts every request. *)

#[export] Instance kmscon_constants : Constants := {|
  DISPLAY_ONLINE := 1;
  DISPLAY_DBUF := 16;
  DISPLAY_DITHERING := 32;
  VIDEO_AWAKE := 1;
  UTERM_DPMS_ON := 0;
  UTERM_DPMS_STANDBY := 1;
  UTERM_DPMS_SUSPEND := 2;
  UTERM_DPMS_OFF := 3;
  UTERM_DPMS_UNKNOWN := 4;
  online_is_flag :=
    ex_intro (fun i => 0 <= i /\ 1 = 2 ^ i) 0 (conj (Z.le_refl 0) eq_refl);
  dbuf_is_flag :=
    ex_intro (fun i => 0 <= i /\ 16 = 2 ^ i) 4
      (conj (Z.lt_le_incl 0 4 eq_refl) eq_refl);
  dithering_is_flag :=
    ex_intro (fun i => 0 <= i /\ 32 = 2 ^ i) 5
      (conj (Z.lt_le_incl 0 5 eq_refl) eq_refl);
  awake_is_flag :=
    ex_intro (fun i => 0 <= i /\ 1 = 2 ^ i) 0 (conj (Z.le_refl 0) eq_refl);
  online_dbuf := ltac:(discriminate);
  online_dithering := ltac:(discriminate);
  dbuf_dithering := ltac:(discriminate);
  dpms_labels := ltac:(repeat constructor; simpl; intuition discriminate)
|}.

Record fb_device : Type := { dev_fix : finfo_t; dev_var : vinfo_t }.

#[export] Instance fb_device_environment : Environment fb_device := {|
  ioctl_get_fscreeninfo := fun w => (w, Some (dev_fix w));
  ioctl_get_vscreeninfo := fun w => (w, Some (dev_var w));
  ioctl_put_vscreeninfo := fun v w =>
    ({| dev_fix := dev_fix w; dev_var := v |}, Some v);
  ioctl_blank := fun _ w => (w, true);
  sys_mmap := fun _ w => (w, true);
  sys_malloc := fun w => (w, true);
  display_set_vblank_timer := fun _ w => w;
  display_schedule_vblank_timer := fun w => (w, 0)
|}.

Definition hd1080 : fb_device :=
  {| dev_fix := fb_fix_screeninfo.mk "demo" 7680 FB_VISUAL_TRUECOLOR;
     dev_var :=
       fb_var_screeninfo.mk 1920 1080 1920 1080 0 0 32
         (fb_bitfield.mk 16 8) (fb_bitfield.mk 8 8) (fb_bitfield.mk 0 8)
         0 6734 192 88 41 4 |}.

(** A palette device: 8 bits per pixel, pseudo-color whatever depth is
    asked for. *)
Definition palette8 : fb_device :=
  {| dev_fix := fb_fix_screeninfo.mk "demo" 640 3;
     dev_var :=
       fb_var_screeninfo.mk 640 480 640 480 0 0 8
         (fb_bitfield.mk 0 8) (fb_bitfield.mk 0 8) (fb_bitfield.mk 0 8)
         0 39721 48 16 33 10 |}.

Definition palette8_init : state fb_device := video_init VIDEO_AWAKE 0 palette8.

(** The display of [hd1080] as [video_init] makes it, in an awake system. *)
Definition hd1080_init : state fb_device := video_init VIDEO_AWAKE 0 hd1080.

(** The same display after a first activation, and after the system then
    went to sleep. *)
Definition hd1080_online : state fb_device := run (Activate None) hd1080_init.
Definition hd1080_asleep : state fb_device := run Sleep hd1080_online.

(** A mode object that a caller might ask for. *)
Definition vga_mode : uterm_mode :=
  {| mode_ref := 1; mode_data := {| width := 640; height := 480 |} |}.

(** ** More predicates: what an activation records *)

(** The buffer description that a single-buffered activation leaves in
    [struct fbdev_display] (lines 271-295): the length is stride times
    height as [unsigned int], the pixels are 2 or 4 bytes with channels of
    at most 8 bits, and the rate is within its clamps. *)
Definition recorded (b : fbdev_display) : Prop :=
  len b = u32 (stride b * yres b)
  /\ (Bpp b = 2 \/ Bpp b = 4)
  /\ len_r b <= 8 /\ len_g b <= 8 /\ len_b b <= 8
  /\ 1 <= rate b <= 200000.

(** The depths that the recorded configuration writes asked for, newest
    first. *)
Fixpoint requested_depths (l : list call) : list Z :=
  match l with
  | [] => []
  | FBIOPUT_VSCREENINFO v :: l' =>
      fb_var_screeninfo.bits_per_pixel v :: requested_depths l'
  | _ :: l' => requested_depths l'
  end.

(** The entries of a depth table before the 0 that ends it. *)
Fixpoint live_depths (ds : list Z) : list Z :=
  match ds with
  | [] => []
  | d :: ds' => if d =? 0 then [] else d :: live_depths ds'
  end.

Section Structure.

Context {World : Type} {env : Environment World} {consts : Constants}.

(** The shape of the display in every state the backend goes through:
    buffer 0 is in front, an Online display has a recorded buffer and a
    current mode, a live mapping has the recorded length, and the list of
    modes is the current mode and nothing else. *)
Definition structure_invariant (s : state World) : Prop :=
  bufid (fbdev s) = 0
  /\ (online s = true -> recorded (fbdev s))
  /\ (forall m, map (fbdev s) = Some m -> map_len m = len (fbdev s))
  /\ modes (disp s)
     = match current_mode (disp s) with Some m => [m] | None => [] end
  /\ (online s = true -> current_mode (disp s) <> None).

(** The record of calls only gets longer. *)
Definition grows (s s' : state World) : Prop :=
  exists l, trace s' = l ++ trace s.

End Structure.

(** ** The lifecycle glue (lines 449-540) *)

(** [UTERM_NEW] and [UTERM_GONE], the two hotplug actions that the
    backend hands to [VIDEO_CB]. *)
Inductive hotplug : Type :=
| UTERM_NEW
| UTERM_GONE.

(** What the glue does to the event loop, to the owning system and to the
    display object, newest first: the registration of [intro_idle_event]
    with the code it returned, its removal, a [VIDEO_CB] notification,
    [close] of the device and [uterm_display_unref]. *)
Inductive notice : Type :=
| RegisterIdle (ret : Z)
| UnregisterIdle
| Announce (action : hotplug)
| Close
| UnrefDisplay.

(** The rest of the environment that [video_init] meets: [display_new]
    of uterm_video.c, which answers a code and, when that is 0, has made
    a display with some flag word; [ev_eloop_register_idle_cb]; [strdup];
    and [open], which answers a descriptor, negative on failure. *)
Class Host (World : Type) : Type := {
  host_display_new : World -> World * (Z * Z);
  host_register_idle_cb : World -> World * Z;
  host_strdup : World -> World * bool;
  host_open : World -> World * Z
}.

Definition set_pending_intro (x : bool) (f : fbdev_display) : fbdev_display :=
  {| pending_intro := x; finfo := finfo f; vinfo := vinfo f;
     rate := rate f; bufid := bufid f; xres := xres f; yres := yres f;
     len := len f; map := map f; stride := stride f; xrgb32 := xrgb32 f;
     Bpp := Bpp f; off_r := off_r f; len_r := len_r f; off_g := off_g f;
     len_g := len_g f; off_b := off_b f; len_b := len_b f;
     dither_r := dither_r f; dither_g := dither_g f; dither_b := dither_b f |}.

Section Lifecycle.

Context {World : Type} {env : Environment World} {host : Host World}
  {consts : Constants}.

(** The backend between [video_init] and [video_destroy]: its video
    object and display, and what the glue has done so far. *)
Record backend : Type := {
  core : state World;
  notices : list notice
}.

(** How a call of [video_init] ends: with an error code and no display,
    or with a backend. *)
Inductive init_outcome : Type :=
| InitFailed (code : Z) (w : World) (done : list notice)
| InitDone (b : backend).

(** [video_init], lines 466-518, with its four error exits.  [err_idle]
    (line 512) calls [ev_eloop_register_idle_cb] a second time. *)
Definition video_init_call (vflags : Z) (w : World) : init_outcome :=
  let (w1, ok) := sys_malloc w in
  if negb ok then InitFailed (- ENOMEM) w1 []
  else
    let (w2, made) := host_display_new w1 in
    let (ret, dflags) := made in
    if nonzero ret then InitFailed ret w2 []
    else
      let (w3, ret) := host_register_idle_cb w2 in
      if nonzero ret
      then InitFailed ret w3 [UnrefDisplay; RegisterIdle ret]
      else
        let (w4, ok) := host_strdup w3 in
        if negb ok then
          let (w5, again) := host_register_idle_cb w4 in
          InitFailed (- ENOMEM) w5
            [UnrefDisplay; RegisterIdle again; RegisterIdle ret]
        else
          let (w5, fd) := host_open w4 in
          if fd <? 0 then
            let (w6, again) := host_register_idle_cb w5 in
            InitFailed (- EFAULT) w6
              [UnrefDisplay; RegisterIdle again; RegisterIdle ret]
          else
            InitDone {| core := video_init vflags dflags w5;
                        notices := [RegisterIdle ret] |}.

(** [intro_idle_event], lines 449-464. *)
Definition intro_idle_event (b : backend) : backend :=
  if negb (pending_intro (fbdev (core b))) then b
  else
    let c := upd_fbdev (set_pending_intro false) (core b) in
    let n := UnregisterIdle :: notices b in
    if negb (video (disp c)) then {| core := c; notices := n |}
    else {| core := c; notices := Announce UTERM_NEW :: n |}.

(** [video_destroy], lines 520-540: what has been done once the display
    is released. *)
Definition video_destroy (b : backend) : list notice :=
  let n :=
    if pending_intro (fbdev (core b))
    then UnregisterIdle :: notices b
    else Announce UTERM_GONE :: notices b in
  UnrefDisplay :: Close :: n.

(** What happens to a backend between its creation and its end: the
    event loop runs the idle callback, or the owning system operates the
    display. *)
Inductive lifecycle_step : Type :=
| IdleEvent
| Operate (o : operation).

Definition lifecycle_run (x : lifecycle_step) (b : backend) : backend :=
  match x with
  | IdleEvent => intro_idle_event b
  | Operate o => {| core := run o (core b); notices := notices b |}
  end.

(** The steps are given oldest first. *)
Definition lifecycle (steps : list lifecycle_step) (b : backend) : backend :=
  fold_left (fun b x => lifecycle_run x b) steps b.

(** A backend whose display has not been announced yet. *)
Definition awaiting (b : backend) : Prop :=
  pending_intro (fbdev (core b)) = true
  /\ notices b = [RegisterIdle 0]
  /\ invariant (core b) /\ structure_invariant (core b).

(** A backend whose display has been announced. *)
Definition announced (b : backend) : Prop :=
  pending_intro (fbdev (core b)) = false
  /\ notices b = [Announce UTERM_NEW; UnregisterIdle; RegisterIdle 0]
  /\ invariant (core b) /\ structure_invariant (core b).

Definition is_idle_event (x : lifecycle_step) : bool :=
  match x with IdleEvent => true | Operate _ => false end.

End Lifecycle.

Arguments backend : clear implicits.
Arguments init_outcome : clear implicits.

(** The 1920x1080 device in a host where everything succeeds. *)
#[export] Instance fb_device_host : Host fb_device := {|
  host_display_new := fun w => (w, (0, 0));
  host_register_idle_cb := fun w => (w, 0);
  host_strdup := fun w => (w, true);
  host_open := fun w => (w, 3)
|}.

(** The activated display made double buffered by hand, with buffer 0 in
    front. *)
Definition hd1080_double : state fb_device :=
  upd_flags (fun f => set_flag f DISPLAY_DBUF) hd1080_online.

(** The backend that [video_init] makes of the 1920x1080 device in an
    awake system, and a life of it: activated, announced by the idle
    callback, put to sleep. *)
Definition hd1080_backend : backend fb_device :=
  {| core := hd1080_init; notices := [RegisterIdle 0] |}.

Definition hd1080_life : list lifecycle_step :=
  [Operate (Activate None); IdleEvent; Operate Sleep].

(** * Properties *)

Section Properties.

Context {World : Type} {env : Environment World} {consts : Constants}.

(** ** Flag words *)

Lemma test_flag_bit (f i : Z) : 0 <= i -> test_flag f (2 ^ i) = Z.testbit f i.
Proof.
  intros Hi. unfold test_flag.
  destruct (Z.testbit f i) eqn:Hb.
  - apply negb_true_iff, Z.eqb_neq. intros H0.
    assert (Hl : Z.testbit (Z.land f (2 ^ i)) i = true).
    { rewrite Z.land_spec, Hb, Z.pow2_bits_true by exact Hi. reflexivity. }
    rewrite H0, Z.bits_0 in Hl. discriminate.
  - apply negb_false_iff, Z.eqb_eq, Z.bits_inj'. intros n Hn.
    rewrite Z.land_spec, Z.bits_0, Z.pow2_bits_eqb by exact Hi.
    destruct (Z.eqb_spec i n) as [->|]; [rewrite Hb | rewrite andb_false_r];
      reflexivity.
Qed.

Lemma test_set_same (f m : Z) : is_flag m -> test_flag (set_flag f m) m = true.
Proof.
  intros (i & Hi & ->). rewrite test_flag_bit by exact Hi.
  unfold set_flag. rewrite Z.lor_spec, Z.pow2_bits_true by exact Hi.
  apply orb_true_r.
Qed.

Lemma test_set_other (f m n : Z) :
  is_flag m -> is_flag n -> m <> n ->
  test_flag (set_flag f m) n = test_flag f n.
Proof.
  intros (i & Hi & ->) (j & Hj & ->) Hne. rewrite !test_flag_bit by exact Hj.
  unfold set_flag. rewrite Z.lor_spec, Z.pow2_bits_false, orb_false_r.
  - reflexivity.
  - intros ->. apply Hne. reflexivity.
Qed.

Lemma test_clear_same (f m : Z) :
  is_flag m -> test_flag (clear_flag f m) m = false.
Proof.
  intros (i & Hi & ->). rewrite test_flag_bit by exact Hi.
  unfold clear_flag.
  rewrite Z.land_spec, Z.lnot_spec, Z.pow2_bits_true by exact Hi.
  apply andb_false_r.
Qed.

Lemma test_clear_other (f m n : Z) :
  is_flag m -> is_flag n -> m <> n ->
  test_flag (clear_flag f m) n = test_flag f n.
Proof.
  intros (i & Hi & ->) (j & Hj & ->) Hne. rewrite !test_flag_bit by exact Hj.
  unfold clear_flag.
  rewrite Z.land_spec, Z.lnot_spec, Z.pow2_bits_false by first
    [exact Hj | intros ->; apply Hne; reflexivity].
  apply andb_true_r.
Qed.

(** ** The rate model *)

Lemma u32_range (x : Z) : 0 <= u32 x < 2 ^ 32.
Proof. unfold u32. apply Z.mod_pos_bound. reflexivity. Qed.

Lemma u32_small (x : Z) : is_u32 x -> u32 x = x.
Proof. intros H. unfold u32. apply Z.mod_small. exact H. Qed.

Lemma monitor_rate_range (v : vinfo_t) : 1 <= monitor_rate v <= 200000.
Proof.
  unfold monitor_rate.
  set (rate := if nonzero (monitor_quot v) then _ else _).
  assert (Hr : 0 <= rate).
  { subst rate. destruct (nonzero (monitor_quot v)); [apply u32_range | lia]. }
  destruct (Z.eqb_spec rate 0); [lia |].
  destruct (Z.ltb_spec 200000 rate); lia.
Qed.

Lemma monitor_rate_fallback (v : vinfo_t) :
  monitor_quot v = 0 -> monitor_rate v = 60000.
Proof. intros H. unfold monitor_rate. rewrite H. reflexivity. Qed.

Lemma monitor_quot_zero (v : vinfo_t) :
  fb_var_screeninfo.wf v ->
  (fb_var_screeninfo.left_margin v + fb_var_screeninfo.right_margin v
   + fb_var_screeninfo.xres v)
  * (fb_var_screeninfo.upper_margin v + fb_var_screeninfo.lower_margin v
     + fb_var_screeninfo.yres v)
  * fb_var_screeninfo.pixclock v = 0 ->
  monitor_quot v = 0.
Proof.
  unfold fb_var_screeninfo.wf, is_u32, monitor_quot.
  intros (Hx & Hy & Hp & Hl & Hr & Hu & Hd) H.
  apply Z.mul_eq_0 in H. destruct H as [H | H].
  - apply Z.mul_eq_0 in H. destruct H as [H | H].
    + assert (Hs : fb_var_screeninfo.left_margin v = 0
                   /\ fb_var_screeninfo.right_margin v = 0
                   /\ fb_var_screeninfo.xres v = 0) by lia.
      destruct Hs as (-> & -> & ->). change (u32 (u32 (0 + 0) + 0)) with 0.
      rewrite Z.mul_0_r. reflexivity.
    + assert (Hs : fb_var_screeninfo.upper_margin v = 0
                   /\ fb_var_screeninfo.lower_margin v = 0
                   /\ fb_var_screeninfo.yres v = 0) by lia.
      destruct Hs as (-> & -> & ->). change (u32 (u32 (0 + 0) + 0)) with 0.
      rewrite Z.mul_0_l. reflexivity.
  - rewrite H, Z.mul_0_r. reflexivity.
Qed.

Lemma vblank_msecs_floor (r : Z) :
  1 <= r <= 200000 ->
  vblank_msecs r = Qfloor (1000 / (inject_Z r / 1000))%Q.
Proof.
  intros Hr. unfold vblank_msecs.
  rewrite u32_small.
  - rewrite Zdiv_Qdiv. apply Qfloor_comp.
    change (inject_Z 1000000) with (1000000 # 1)%Q.
    field. intros H. unfold Qeq in H. simpl in H. lia.
  - unfold is_u32. split.
    + apply Z.div_pos; lia.
    + apply Z.le_lt_trans with 1000000; [| reflexivity].
      apply Z.div_le_upper_bound; lia.
Qed.

(** C2.  The rate model of lines 246-266.  For every timing triple read
    from the device (horizontal sum, vertical sum, pixel clock period),
    the rate it stores lies between 1 and 200000 milli-Hertz; when the
    product of the three is zero the rate is exactly 60000 milli-Hertz;
    and the interval in milliseconds derived from it is 1000 divided by
    the rate in Hertz, rounded down. *)
Theorem rate_model_sound (v : vinfo_t) :
  fb_var_screeninfo.wf v ->
  let hsum := fb_var_screeninfo.left_margin v
              + fb_var_screeninfo.right_margin v
              + fb_var_screeninfo.xres v in
  let vsum := fb_var_screeninfo.upper_margin v
              + fb_var_screeninfo.lower_margin v
              + fb_var_screeninfo.yres v in
  let rate := monitor_rate v in
  1 <= rate <= 200000
  /\ (hsum * vsum * fb_var_screeninfo.pixclock v = 0 -> rate = 60000)
  /\ (monitor_quot v = 0 -> rate = 60000)
  /\ vblank_msecs rate = Qfloor (1000 / (inject_Z rate / 1000))%Q.
Proof.
  intros Hwf hsum vsum rate. subst rate.
  split; [apply monitor_rate_range |].
  split; [| split].
  - intros H. apply monitor_rate_fallback, monitor_quot_zero; assumption.
  - apply monitor_rate_fallback.
  - apply vblank_msecs_floor, monitor_rate_range.
Qed.

(** ** Composing computations *)

Section Composition.

Variable R : state World -> state World -> Prop.
Variable E : Z -> Prop.
Hypothesis R_refl : forall s, R s s.
Hypothesis R_trans : forall a b c, R a b -> R b c -> R a c.

Lemma ensures_ret {A} (a : A) : ensures (ret a) R E.
Proof. intros s. apply R_refl. Qed.

Lemma ensures_return {A} (c : Z) : E c -> ensures (@return_ World A c) R E.
Proof. intros Hc s. split; [apply R_refl | exact Hc]. Qed.

Lemma ensures_gets {A} (f : state World -> A) : ensures (gets f) R E.
Proof. intros s. apply R_refl. Qed.

Lemma ensures_modify (f : state World -> state World) :
  (forall s, R s (f s)) -> ensures (modify f) R E.
Proof. intros Hf s. apply Hf. Qed.

Lemma ensures_bind {A B} (m : M World A) (k : A -> M World B) :
  ensures m R E -> (forall a, ensures (k a) R E) -> ensures (bind m k) R E.
Proof.
  intros Hm Hk s. unfold bind. specialize (Hm s).
  destruct (m s) as [s1 [a | c]].
  - specialize (Hk a s1). destruct (k a s1) as [s2 [b | c]].
    + eapply R_trans; eassumption.
    + destruct Hk as [Hk Hc]. split; [eapply R_trans; eassumption | exact Hc].
  - exact Hm.
Qed.

Lemma ensures_when (c : bool) (m : M World unit) :
  (c = true -> ensures m R E) -> ensures (when c m) R E.
Proof.
  intros Hm. unfold when. destruct c; [apply Hm; reflexivity | apply ensures_ret].
Qed.

Lemma ensures_invoke (f : state World -> state World * Z) :
  (forall s, R s (fst (f s))) -> ensures (invoke f) R E.
Proof.
  intros Hf s. unfold invoke. specialize (Hf s).
  destruct (f s) as [s1 r]. exact Hf.
Qed.

Lemma ensures_exec (m : M World Z) :
  ensures m R E -> forall s, R s (fst (exec m s)).
Proof.
  intros Hm s. unfold exec. specialize (Hm s).
  destruct (m s) as [s1 [r | c]]; [exact Hm | apply Hm].
Qed.

End Composition.

(** ** Negotiation only touches the parameters *)

Lemma negotiation_frame_refl (s : state World) : negotiation_frame s s.
Proof. repeat split; auto. Qed.

Lemma negotiation_frame_trans (a b c : state World) :
  negotiation_frame a b -> negotiation_frame b c -> negotiation_frame a c.
Proof.
  intros (H1 & H2 & H3) (H4 & H5 & H6). repeat split.
  - congruence.
  - congruence.
  - auto.
Qed.

Lemma nonzero_neq (r : Z) : nonzero r = true -> r <> 0.
Proof. unfold nonzero. intros H. apply negb_true_iff, Z.eqb_neq in H. exact H. Qed.

Lemma frame_get_fscreeninfo :
  ensures ioctl_FBIOGET_FSCREENINFO negotiation_frame (fun c => c <> 0).
Proof.
  intros s. unfold ioctl_FBIOGET_FSCREENINFO.
  destruct (ioctl_get_fscreeninfo (world s)) as [w [fi |]];
    repeat split; auto.
Qed.

Lemma frame_get_vscreeninfo :
  ensures ioctl_FBIOGET_VSCREENINFO negotiation_frame (fun c => c <> 0).
Proof.
  intros s. unfold ioctl_FBIOGET_VSCREENINFO.
  destruct (ioctl_get_vscreeninfo (world s)) as [w [vi |]];
    repeat split; auto.
Qed.

Lemma frame_put_vscreeninfo :
  ensures ioctl_FBIOPUT_VSCREENINFO negotiation_frame (fun c => c <> 0).
Proof.
  intros s. unfold ioctl_FBIOPUT_VSCREENINFO.
  destruct (ioctl_put_vscreeninfo (vinfo (fbdev s)) (world s)) as [w [vi |]];
    repeat split; auto.
Qed.

Lemma frame_upd_vinfo (f : vinfo_t -> vinfo_t) :
  ensures (World := World) (modify (upd_vinfo f)) negotiation_frame
          (fun c => c <> 0).
Proof. intros s. repeat split; auto. Qed.

Lemma frame_clear_dbuf :
  ensures (World := World)
          (modify (upd_flags (fun f => clear_flag f DISPLAY_DBUF)))
          negotiation_frame (fun c => c <> 0).
Proof.
  intros s. repeat split.
  - unfold online. cbn.
    apply test_clear_other;
      auto using dbuf_is_flag, online_is_flag, online_dbuf.
  - intros _. unfold double_buffered. cbn.
    apply test_clear_same, dbuf_is_flag.
Qed.

Create HintDb frame.

#[local] Hint Resolve negotiation_frame_refl negotiation_frame_trans
  ensures_ret ensures_gets frame_get_fscreeninfo frame_get_vscreeninfo
  frame_put_vscreeninfo frame_upd_vinfo frame_clear_dbuf : frame.

Ltac frame_step :=
  first
    [ solve [auto with frame]
    | apply ensures_bind; [exact negotiation_frame_trans | | intros ?]
    | apply ensures_when; [exact negotiation_frame_refl | intros ?]
    | apply ensures_return; [exact negotiation_frame_refl | ]
    | apply ensures_invoke
    | apply ensures_ret; exact negotiation_frame_refl
    | apply ensures_gets; exact negotiation_frame_refl ].

Lemma frame_refresh_info (s : state World) :
  negotiation_frame s (fst (refresh_info s)).
Proof.
  unfold refresh_info.
  apply (ensures_exec negotiation_frame (fun c => c <> 0)).
  repeat frame_step; unfold EFAULT; lia.
Qed.

Lemma frame_try_depths (ds : list Z) :
  ensures (try_depths ds) negotiation_frame (fun c => c <> 0).
Proof.
  induction ds as [| d ds IH]; cbn [try_depths].
  - auto with frame.
  - destruct (d =? 0); [auto with frame |].
    repeat frame_step.
    destruct (_ <? 0); [exact IH |].
    repeat frame_step.
    + apply frame_refresh_info.
    + apply nonzero_neq. assumption.
    + destruct (_ =? FB_VISUAL_TRUECOLOR); [auto with frame | exact IH].
Qed.

#[local] Hint Resolve frame_try_depths : frame.

Lemma frame_apply_and_negotiate :
  ensures apply_and_negotiate negotiation_frame (fun c => c <> 0).
Proof.
  unfold apply_and_negotiate.
  repeat frame_step.
  - unfold EFAULT. lia.
  - apply frame_refresh_info.
  - apply nonzero_neq. assumption.
Qed.

Lemma request_buffers_post (s : state World) :
  match request_buffers s with
  | (s', Next _) =>
      beside_parameters s' = beside_parameters s
      /\ online s' = online s
      /\ double_buffered s' = false
  | (s', Return c) =>
      beside_parameters s' = beside_parameters s
      /\ flags (disp s') = flags (disp s)
      /\ c <> 0
  end.
Proof.
  unfold request_buffers, invoke, refresh_info, exec, bind, when, ret,
    return_, gets, modify, ioctl_FBIOGET_FSCREENINFO,
    ioctl_FBIOGET_VSCREENINFO.
  destruct (ioctl_get_fscreeninfo (world s)) as [w1 [fi |]]; cbn.
  - destruct (ioctl_get_vscreeninfo w1) as [w2 [vi |]]; cbn.
    + repeat split.
      * unfold online. cbn.
        rewrite test_clear_other, test_set_other;
          auto using dbuf_is_flag, online_is_flag, online_dbuf.
      * unfold double_buffered. cbn. apply test_clear_same, dbuf_is_flag.
    + repeat split. discriminate.
  - repeat split. discriminate.
Qed.

Lemma negotiate_post (s : state World) :
  match negotiate s with
  | (s', Next _) =>
      beside_parameters s' = beside_parameters s
      /\ online s' = online s
      /\ double_buffered s' = false
  | (s', Return c) =>
      beside_parameters s' = beside_parameters s
      /\ online s' = online s
      /\ (double_buffered s' = false \/ double_buffered s' = double_buffered s)
      /\ c <> 0
  end.
Proof.
  unfold negotiate, bind.
  pose proof (request_buffers_post s) as H1.
  destruct (request_buffers s) as [s1 [[] | c]].
  - destruct H1 as (Hb & Ho & Hd).
    pose proof (frame_apply_and_negotiate s1) as H2.
    destruct (apply_and_negotiate s1) as [s2 [[] | c]].
    + destruct H2 as (Hb2 & Ho2 & Hd2). repeat split; [congruence .. | auto].
    + destruct H2 as ((Hb2 & Ho2 & Hd2) & Hc).
      repeat split; [congruence .. | auto | exact Hc].
  - destruct H1 as (Hb & Hf & Hc). repeat split.
    + exact Hb.
    + unfold online. rewrite Hf. reflexivity.
    + right. unfold double_buffered. rewrite Hf. reflexivity.
    + exact Hc.
Qed.

Lemma format_ok_checks (fi : finfo_t) (vi : vinfo_t) :
  format_ok fi vi =
  negb (negb (fb_var_screeninfo.bits_per_pixel vi =? 32)
        && negb (fb_var_screeninfo.bits_per_pixel vi =? 16))
  && negb (negb (fb_fix_screeninfo.visual fi =? FB_VISUAL_TRUECOLOR))
  && negb ((8 <? fb_bitfield.length (fb_var_screeninfo.red vi))
           || (8 <? fb_bitfield.length (fb_var_screeninfo.green vi))
           || (8 <? fb_bitfield.length (fb_var_screeninfo.blue vi))).
Proof.
  unfold format_ok. rewrite !Z.ltb_antisym.
  destruct (_ =? 32), (_ =? 16), (_ =? FB_VISUAL_TRUECOLOR),
    (_ <=? 8), (_ <=? 8), (_ <=? 8); reflexivity.
Qed.

Lemma xrgb32_record_region (l : Z) (b : fbdev_display) :
  xrgb32 (record_region l b) = xrgb32_layout (record_region l b).
Proof.
  unfold record_region.
  match goal with |- context [if ?c then _ else _] => destruct c eqn:Hc end.
  - symmetry. exact Hc.
  - rewrite Hc. reflexivity.
Qed.

Lemma check_format_post (s : state World) :
  check_format s =
  (s, if format_ok (finfo (fbdev s)) (vinfo (fbdev s))
      then Next tt else Return (- EFAULT)).
Proof.
  unfold check_format, bind, gets, when, return_, ret.
  rewrite format_ok_checks.
  destruct (negb (_ =? 32) && negb (_ =? 16)); cbn [negb andb];
    [reflexivity |].
  destruct (negb (_ =? FB_VISUAL_TRUECOLOR)); cbn [negb andb];
    [reflexivity |].
  destruct (_ || _); reflexivity.
Qed.

Lemma record_region_fields (l : Z) (b : fbdev_display) :
  finfo (record_region l b) = finfo b
  /\ vinfo (record_region l b) = vinfo b
  /\ map (record_region l b) = map b
  /\ xres (record_region l b) = fb_var_screeninfo.xres (vinfo b)
  /\ yres (record_region l b) = fb_var_screeninfo.yres (vinfo b).
Proof.
  unfold record_region.
  match goal with |- context [if ?c then _ else _] => destruct c end;
    repeat split.
Qed.

Ltac flag_facts :=
  auto using online_is_flag, dbuf_is_flag, dithering_is_flag, awake_is_flag,
    online_dbuf, online_dithering, dbuf_dithering.

Ltac flag_solve :=
  unfold online, double_buffered; cbn;
  rewrite ?test_set_same, ?test_clear_same, ?test_set_other,
    ?test_clear_other by flag_facts;
  auto.

Lemma bring_online_post (s : state World) :
  match bring_online s with
  | (s', Next r) => r = 0 /\ brought_online s s'
  | (s', Return c) =>
      c <> 0 /\ left_offline s s'
      /\ (format_ok (finfo (fbdev s)) (vinfo (fbdev s)) = false ->
          s' = s /\ c = - EFAULT)
  end.
Proof.
  unfold bring_online. unfold bind at 1. rewrite check_format_post.
  destruct (format_ok _ _) eqn:Hok.
  2:{ split; [discriminate |]. split; [| auto]. repeat split; auto. }
  unfold set_monitor_rate, map_buffer, mmap, attach_mode, mode_new,
    mode_init, malloc, munmap.
  unfold bind, gets, when, return_, ret, modify.
  cbn -[record_region].
  match goal with
  | |- context [sys_mmap ?x _] => set (l := x)
  end.
  match goal with
  | |- context [sys_mmap l ?w] => destruct (sys_mmap l w) as [w1 []]
  end; cbn -[record_region].
  2:{ split; [discriminate |]. split; [| discriminate]. repeat split; auto. }
  destruct (record_region_fields l (set_map (Some {| map_len := l |})
    (set_rate (monitor_rate (vinfo (data (disp s)))) (data (disp s)))))
    as (Hfi & Hvi & Hmap & Hx & Hy).
  destruct (current_mode (disp s)) as [m |] eqn:Hcur; cbn -[record_region].
  - split; [reflexivity |]. unfold brought_online, mapped, fbdev.
    cbn -[record_region]. rewrite Hcur, Hfi, Hvi, Hmap, Hx, Hy.
    repeat split; try (flag_solve; fail). apply xrgb32_record_region.
  - destruct (sys_malloc w1) as [w2 []]; cbn -[record_region].
    + destruct (sys_malloc w2) as [w3 []]; cbn -[record_region].
      * split; [reflexivity |]. unfold brought_online, mapped, fbdev.
        cbn -[record_region]. rewrite Hcur, Hfi, Hvi, Hmap, Hx, Hy.
        repeat split; try (flag_solve; fail).
        -- apply xrgb32_record_region.
        -- eexists. repeat split.
      * split; [discriminate |]. split; [| discriminate].
        unfold left_offline, fbdev. cbn -[record_region]. rewrite Hfi, Hvi.
        repeat split; try (flag_solve; fail). intros _.
        apply (xrgb32_record_region l).
    + split; [discriminate |]. split; [| discriminate].
      unfold left_offline, fbdev. cbn -[record_region]. rewrite Hfi, Hvi.
      repeat split; try (flag_solve; fail). intros _.
      apply (xrgb32_record_region l).
Qed.

Lemma beside_parameters_eq (s s' : state World) :
  beside_parameters s' = beside_parameters s ->
  video_flags (uvideo s') = video_flags (uvideo s)
  /\ video (disp s') = video (disp s)
  /\ modes (disp s') = modes (disp s)
  /\ current_mode (disp s') = current_mode (disp s)
  /\ dpms (disp s') = dpms (disp s)
  /\ map (fbdev s') = map (fbdev s)
  /\ xrgb32 (fbdev s') = xrgb32 (fbdev s)
  /\ xrgb32_layout (fbdev s') = xrgb32_layout (fbdev s).
Proof.
  unfold beside_parameters, region, xrgb32_layout. intros H.
  injection H as -> -> -> -> -> _ _ _ _ _ _ -> _ -> -> -> -> -> -> -> -> _ _ _.
  repeat split.
Qed.

(** The whole of an activation that got past its guards. *)
Lemma activate_body_post (s : state World) :
  let (s', f) := activate_body s in
  video_flags (uvideo s') = video_flags (uvideo s)
  /\ video (disp s') = video (disp s)
  /\ dpms (disp s') = dpms (disp s)
  /\ match f with
     | Next r =>
         r = 0
         /\ online s' = true
         /\ double_buffered s' = false
         /\ mapped s' = true
         /\ xrgb32 (fbdev s') = xrgb32_layout (fbdev s')
         /\ format_ok (finfo (fbdev s')) (vinfo (fbdev s')) = true
         /\ xres (fbdev s') = fb_var_screeninfo.xres (vinfo (fbdev s'))
         /\ yres (fbdev s') = fb_var_screeninfo.yres (vinfo (fbdev s'))
         /\ match current_mode (disp s) with
            | Some m =>
                current_mode (disp s') = Some m
                /\ modes (disp s') = modes (disp s)
            | None =>
                exists m,
                  current_mode (disp s') = Some m
                  /\ modes (disp s') = m :: modes (disp s)
                  /\ mode_get_width m = 0 /\ mode_get_height m = 0
            end
     | Return c =>
         c <> 0
         /\ online s' = online s
         /\ (double_buffered s' = false
             \/ double_buffered s' = double_buffered s)
         /\ (map (fbdev s') = map (fbdev s) \/ map (fbdev s') = None)
         /\ (xrgb32 (fbdev s) = xrgb32_layout (fbdev s) ->
             xrgb32 (fbdev s') = xrgb32_layout (fbdev s'))
         /\ modes (disp s') = modes (disp s)
         /\ current_mode (disp s') = current_mode (disp s)
     end.
Proof.
  unfold activate_body, bind.
  pose proof (negotiate_post s) as H1.
  destruct (negotiate s) as [s1 [[] | c]].
  - destruct H1 as (Hb & Ho & Hd).
    apply beside_parameters_eq in Hb.
    destruct Hb as (Hvf & Hv & Hms & Hcm & Hdp & Hmap & Hx & Hxl).
    pose proof (bring_online_post s1) as H2.
    destruct (bring_online s1) as [s2 [r | c]].
    + destruct H2 as (Hr & Hok & Hfi & Hvi & Hvf2 & Hv2 & Hdp2 & Hon & Hdb
                      & Hmp & Hxr & Hxres & Hyres & Hmode).
      rewrite Hfi, Hvi, <- Hcm, <- Hms.
      repeat split; try congruence.
    + destruct H2 as (Hc & (Hfi & Hvi & Hvf2 & Hv2 & Hdp2 & Hon & Hdb & Hmp
                            & Hxr & Hms2 & Hcm2) & _).
      repeat split; try congruence.
      * left. congruence.
      * intros Hi. apply Hxr. congruence.
  - destruct H1 as (Hb & Ho & Hd & Hc).
    apply beside_parameters_eq in Hb.
    destruct Hb as (Hvf & Hv & Hms & Hcm & Hdp & Hmap & Hx & Hxl).
    repeat split; try congruence. left. exact Hmap.
Qed.

Lemma display_activate_force_cases (mode : option uterm_mode) (force : bool)
  (s : state World) :
  display_activate_force mode force s =
  if negb (video (disp s)) || negb (video_is_awake s) then (s, - EINVAL)
  else if negb force && online s then (s, 0)
  else match mode with
       | Some _ => (s, - EINVAL)
       | None => exec activate_body s
       end.
Proof.
  unfold display_activate_force, exec, bind, gets, when, return_, ret, online.
  destruct (negb (video (disp s)) || negb (video_is_awake s)); [reflexivity |].
  destruct (negb force && test_flag (flags (disp s)) DISPLAY_ONLINE);
    [reflexivity |].
  destruct mode; reflexivity.
Qed.

(** ** The other operations, case by case *)

(** The [memset] of lines 283 and 349 changes nothing but the record of
    calls. *)
Lemma through_map_uvideo (s : state World) :
  uvideo (through_map s) = uvideo s.
Proof. unfold through_map. destruct (map (fbdev s)); reflexivity. Qed.

Lemma through_map_live (s : state World) :
  mapped s = true -> through_map s = s.
Proof.
  unfold mapped, through_map.
  destruct (map (fbdev s)); [reflexivity | discriminate].
Qed.

Lemma through_map_dead (s : state World) :
  mapped s = false -> through_map s = log DeadStore s.
Proof.
  unfold mapped, through_map.
  destruct (map (fbdev s)); [discriminate | reflexivity].
Qed.

Ltac store_cases :=
  unfold through_map;
  repeat match goal with
         | |- context [match map ?b with Some _ => _ | None => _ end] =>
             let live := fresh "live" in destruct (map b) as [live |]
         end.

Lemma display_deactivate_force_cases (force : bool) (s : state World) :
  display_deactivate_force force s =
  if negb (video (disp s)) || negb (online s) then s
  else if force
  then upd_fbdev (set_map None) (log Munmap (through_map s))
  else
    upd_flags (fun f => clear_flag f DISPLAY_ONLINE)
      (upd_fbdev (set_map None)
         (log Munmap
            (through_map
               (upd_disp (set_current_mode None)
                  (upd_disp (set_modes []) (log ModeUnref s)))))).
Proof.
  unfold display_deactivate_force, exec_void, bind, gets, when, return_, ret,
    online, uterm_mode_unref, munmap, memset, modify.
  destruct (negb (video (disp s)) || negb _); [reflexivity |].
  destruct force; reflexivity.
Qed.

Lemma display_set_dpms_cases (st : Z) (s : state World) :
  display_set_dpms st s =
  if negb (video (disp s)) || negb (online s) then (s, - EINVAL)
  else match blank_level st with
       | None => (s, - EINVAL)
       | Some set =>
           let (w, ok) := ioctl_blank set (world s) in
           let s1 := log (FBIOBLANK set) (set_world w s) in
           if ok then (upd_disp (set_dpms st) s1, 0) else (s1, - EFAULT)
       end.
Proof.
  unfold display_set_dpms, exec, bind, gets, when, return_, ret, online,
    ioctl_FBIOBLANK, modify.
  destruct (negb (video (disp s)) || negb _); [reflexivity |].
  destruct (blank_level st) as [set |]; [| reflexivity].
  destruct (ioctl_blank set (world s)) as [w []]; reflexivity.
Qed.

Lemma display_swap_refused (s : state World) :
  negb (video (disp s)) || negb (video_is_awake s) || negb (online s) = true ->
  display_swap s = (s, - EINVAL).
Proof.
  unfold display_swap, exec, bind, gets, when, return_, ret, online.
  destruct (negb (video (disp s)) || negb (video_is_awake s)); [reflexivity |].
  cbn [orb]. intros ->. reflexivity.
Qed.

Lemma display_swap_single_buffered (s : state World) :
  video (disp s) = true -> video_is_awake s = true -> online s = true ->
  double_buffered s = false ->
  display_swap s = schedule_vblank_timer s.
Proof.
  unfold display_swap, exec, bind, gets, when, return_, ret, online,
    double_buffered, invoke.
  intros Hv Ha Ho Hd. rewrite Hv, Ha. cbn [negb orb].
  rewrite Ho. cbn [negb]. rewrite Hd. cbn [negb].
  destruct (schedule_vblank_timer s). reflexivity.
Qed.

Lemma video_sleep_cases (s : state World) :
  video_sleep s =
  if negb (video_is_awake s) then s
  else
    let s1 := display_deactivate_force true s in
    set_video_flags (clear_flag (video_flags (uvideo s1)) VIDEO_AWAKE) s1.
Proof.
  unfold video_sleep, exec_void, bind, gets, when, return_, ret,
    video_is_awake, invoke_void, modify.
  destruct (negb _); reflexivity.
Qed.

Lemma video_wake_up_cases (s : state World) :
  video_wake_up s =
  if video_is_awake s then (s, 0)
  else if online (awaken s) then
    let (s1, r) := display_activate_force None true (awaken s) in
    if nonzero r
    then (set_video_flags (clear_flag (video_flags (uvideo s1)) VIDEO_AWAKE) s1,
          r)
    else (s1, 0)
  else (awaken s, 0).
Proof.
  unfold video_wake_up, exec, bind, gets, when, return_, ret,
    video_is_awake, invoke, modify, online, awaken.
  destruct (test_flag (video_flags (uvideo s)) VIDEO_AWAKE); [reflexivity |].
  destruct (test_flag _ DISPLAY_ONLINE); [| reflexivity].
  destruct (display_activate_force None true _) as [s1 r].
  destruct (nonzero r); reflexivity.
Qed.

(** ** The invariant of the backend *)

Lemma invariant_init (vflags dflags : Z) (w : World) :
  test_flag dflags DISPLAY_ONLINE = false ->
  invariant (video_init vflags dflags w).
Proof.
  intros Hoff. unfold invariant, online, mapped, double_buffered. cbn.
  rewrite Hoff. repeat split; auto; discriminate.
Qed.

Lemma awake_of_video_flags (s s' : state World) :
  video_flags (uvideo s') = video_flags (uvideo s) ->
  video_is_awake s' = video_is_awake s.
Proof. unfold video_is_awake. intros ->. reflexivity. Qed.

(** An activation that runs its body from a state without mapping
    either ends online and mapped, or leaves the display as offline or
    online as it was, without mapping. *)
Lemma activate_body_invariant (s : state World) :
  video (disp s) = true ->
  map (fbdev s) = None ->
  (online s = true -> double_buffered s = false) ->
  xrgb32 (fbdev s) = xrgb32_layout (fbdev s) ->
  let (s', r) := exec activate_body s in
  video (disp s') = true
  /\ video_flags (uvideo s') = video_flags (uvideo s)
  /\ (online s' = true -> double_buffered s' = false)
  /\ xrgb32 (fbdev s') = xrgb32_layout (fbdev s')
  /\ (r = 0 ->
      mapped s' = true /\ online s' = true
      /\ format_ok (finfo (fbdev s')) (vinfo (fbdev s')) = true)
  /\ (r <> 0 -> mapped s' = false /\ online s' = online s).
Proof.
  intros Hv Hmap Hdb Hx. unfold exec.
  pose proof (activate_body_post s) as H.
  destruct (activate_body s) as [s' [r | c]].
  - destruct H as (Hvf & Hv' & _ & Hr & Hon & Hdb' & Hmp & Hx' & Hok & _).
    repeat split; auto; try congruence.
  - destruct H as (Hvf & Hv' & _ & Hc & Hon & Hdb' & Hmp & Hx' & _).
    repeat split; auto; try congruence.
    + intros Ho. destruct Hdb' as [H | H]; [exact H |].
      rewrite H. apply Hdb. congruence.
    + unfold mapped. destruct Hmp as [-> | ->]; [rewrite Hmap |]; reflexivity.
Qed.

Lemma invariant_activate (mode : option uterm_mode) (s : state World) :
  invariant s -> invariant (fst (display_activate mode s)).
Proof.
  intros Hinv. unfold display_activate.
  rewrite display_activate_force_cases.
  destruct (negb (video (disp s)) || negb (video_is_awake s)) eqn:Hg;
    [exact Hinv |].
  cbn [negb andb].
  destruct (online s) eqn:Hon; [exact Hinv |].
  destruct mode; [exact Hinv |].
  apply orb_false_iff in Hg. destruct Hg as [Hv Ha].
  apply negb_false_iff in Hv, Ha.
  destruct Hinv as (_ & Hm & _ & Hdb & Hx & _).
  assert (Hmap : map (fbdev s) = None).
  { specialize (Hm Ha). rewrite Hon in Hm. unfold mapped in Hm.
    destruct (map (fbdev s)); [discriminate | reflexivity]. }
  pose proof (activate_body_invariant s Hv Hmap Hdb Hx) as H.
  destruct (exec activate_body s) as [s' r]. cbn [fst].
  destruct H as (Hv' & Hvf & Hdb' & Hx' & H0 & H1).
  apply awake_of_video_flags in Hvf. unfold invariant.
  rewrite Hvf, Ha.
  destruct (Z.eq_dec r 0) as [Hr | Hr].
  - destruct (H0 Hr) as (Hmp & Ho & Hok).
    repeat split; auto; try congruence.
  - destruct (H1 Hr) as (Hmp & Ho).
    repeat split; auto; try congruence.
Qed.

Lemma invariant_deactivate (s : state World) :
  invariant s -> invariant (display_deactivate s).
Proof.
  intros Hinv. unfold display_deactivate.
  rewrite display_deactivate_force_cases.
  destruct (negb (video (disp s)) || negb (online s)) eqn:Hg; [exact Hinv |].
  destruct Hinv as (Hv & _ & _ & _ & Hx & _).
  store_cases;
    unfold invariant, online, mapped, double_buffered, video_is_awake; cbn;
    rewrite test_clear_same by flag_facts;
    repeat split; auto; discriminate.
Qed.

Lemma schedule_vblank_timer_state (s : state World) :
  uvideo (fst (schedule_vblank_timer s)) = uvideo s.
Proof.
  unfold schedule_vblank_timer.
  destruct (display_schedule_vblank_timer (world s)). reflexivity.
Qed.

Lemma invariant_uvideo (s s' : state World) :
  uvideo s' = uvideo s -> invariant s -> invariant s'.
Proof.
  unfold invariant, online, mapped, double_buffered, video_is_awake, fbdev,
    disp.
  intros ->. exact (fun H => H).
Qed.

Lemma invariant_swap (s : state World) :
  invariant s -> invariant (fst (display_swap s)).
Proof.
  intros Hinv.
  destruct (negb (video (disp s)) || negb (video_is_awake s)
            || negb (online s)) eqn:Hg.
  - rewrite display_swap_refused by exact Hg. exact Hinv.
  - apply orb_false_iff in Hg. destruct Hg as [Hg Ho].
    apply orb_false_iff in Hg. destruct Hg as [Hv Ha].
    apply negb_false_iff in Hv, Ha, Ho.
    rewrite display_swap_single_buffered; auto.
    + eapply invariant_uvideo; [apply schedule_vblank_timer_state | exact Hinv].
    + destruct Hinv as (_ & _ & _ & Hdb & _). auto.
Qed.

Lemma invariant_set_dpms (st : Z) (s : state World) :
  invariant s -> invariant (fst (display_set_dpms st s)).
Proof.
  intros Hinv. rewrite display_set_dpms_cases.
  destruct (negb (video (disp s)) || negb (online s)); [exact Hinv |].
  destruct (blank_level st) as [set |]; [| exact Hinv].
  destruct (ioctl_blank set (world s)) as [w []]; exact Hinv.
Qed.

Lemma invariant_sleep (s : state World) :
  invariant s -> invariant (video_sleep s).
Proof.
  intros Hinv. rewrite video_sleep_cases.
  destruct (video_is_awake s) eqn:Ha; [| exact Hinv]. cbn [negb].
  rewrite display_deactivate_force_cases.
  destruct Hinv as (Hv & Hm & _ & Hdb & Hx & _). specialize (Hm Ha).
  rewrite Hv. cbn [negb orb].
  destruct (online s) eqn:Ho; cbn [negb]; store_cases;
    unfold invariant, online, mapped, double_buffered, video_is_awake in *;
    cbn; rewrite test_clear_same by flag_facts;
    repeat split; auto; try discriminate; congruence.
Qed.

Lemma invariant_wake_up (s : state World) :
  invariant s -> invariant (fst (video_wake_up s)).
Proof.
  intros Hinv. rewrite video_wake_up_cases.
  destruct (video_is_awake s) eqn:Ha; [exact Hinv |].
  destruct Hinv as (Hv & _ & Hm & Hdb & Hx & _). specialize (Hm Ha).
  assert (Haw : video_is_awake (awaken s) = true).
  { unfold video_is_awake, awaken. cbn. apply test_set_same. flag_facts. }
  destruct (online (awaken s)) eqn:Ho.
  - rewrite display_activate_force_cases.
    change (video (disp (awaken s))) with (video (disp s)).
    rewrite Hv, Haw. cbn [negb orb andb].
    assert (Hmap : map (fbdev (awaken s)) = None).
    { unfold mapped in Hm. change (fbdev (awaken s)) with (fbdev s).
      destruct (map (fbdev s)); [discriminate | reflexivity]. }
    pose proof (activate_body_invariant (awaken s) Hv Hmap Hdb Hx) as H.
    destruct (exec activate_body (awaken s)) as [s' r].
    destruct H as (Hv' & Hvf & Hdb' & Hx' & H0 & H1).
    apply awake_of_video_flags in Hvf. rewrite Haw in Hvf.
    unfold nonzero. destruct (Z.eqb_spec r 0) as [Hr | Hr]; cbn [negb fst].
    + destruct (H0 Hr) as (Hmp & Hon & Hok). unfold invariant.
      rewrite Hvf. repeat split; auto; try congruence.
    + destruct (H1 Hr) as (Hmp & Hon).
      unfold invariant, video_is_awake. cbn.
      rewrite test_clear_same by flag_facts.
      repeat split; auto; discriminate.
  - cbn [fst]. unfold invariant. rewrite Haw, Ho.
    repeat split; auto; discriminate.
Qed.

Lemma invariant_run (o : operation) (s : state World) :
  invariant s -> invariant (run o s).
Proof.
  destruct o; cbn [run].
  - apply invariant_activate.
  - apply invariant_deactivate.
  - apply invariant_swap.
  - apply invariant_set_dpms.
  - apply invariant_sleep.
  - apply invariant_wake_up.
Qed.

Lemma reachable_invariant (s : state World) : reachable s -> invariant s.
Proof.
  induction 1 as [vflags dflags w Hoff | s o _ IH].
  - apply invariant_init. exact Hoff.
  - apply invariant_run. exact IH.
Qed.

(** ** Activation *)

Lemma format_ok_supported (fi : finfo_t) (vi : vinfo_t) :
  format_ok fi vi = true <-> supported_format fi vi.
Proof.
  unfold format_ok, supported_format.
  rewrite !andb_true_iff, orb_true_iff, !Z.eqb_eq, !Z.leb_le.
  tauto.
Qed.

Lemma xrgb32_layout_spec (b : fbdev_display) :
  xrgb32_layout b = true <->
  len_r b = 8 /\ len_g b = 8 /\ len_b b = 8
  /\ off_r b = 16 /\ off_g b = 8 /\ off_b b = 0 /\ Bpp b = 4.
Proof.
  unfold xrgb32_layout. rewrite !andb_true_iff, !Z.eqb_eq. tauto.
Qed.

(** Whatever a successful activation returns in satisfies what the
    invariant says of an online display in an awake system. *)
Lemma activate_success (mode : option uterm_mode) (force : bool)
  (s : state World) :
  invariant s ->
  snd (display_activate_force mode force s) = 0 ->
  let s' := fst (display_activate_force mode force s) in
  online s' = true
  /\ xrgb32 (fbdev s') = xrgb32_layout (fbdev s')
  /\ format_ok (finfo (fbdev s')) (vinfo (fbdev s')) = true.
Proof.
  intros Hinv. rewrite display_activate_force_cases.
  destruct (negb (video (disp s)) || negb (video_is_awake s)) eqn:Hg;
    [discriminate |].
  apply orb_false_iff in Hg. destruct Hg as [_ Ha]. apply negb_false_iff in Ha.
  destruct Hinv as (_ & _ & _ & _ & Hx & Hok).
  destruct (negb force && online s) eqn:Hn.
  - intros _. apply andb_true_iff in Hn. destruct Hn as [_ Ho].
    cbn [fst]. auto.
  - destruct mode; [discriminate |].
    unfold exec. pose proof (activate_body_post s) as H.
    destruct (activate_body s) as [s' [r | c]]; cbn [fst snd].
    + intros _.
      destruct H as (_ & _ & _ & _ & Hon & _ & _ & Hx' & Hok' & _). auto.
    + destruct H as (_ & _ & _ & Hc & _). intros Hr. contradiction.
Qed.

(** C3.  Lines 222-241 of [display_activate_force].  Whenever an
    activation succeeds, the format it leaves in the display has 16 or 32
    bits per pixel, a true-color visual and no color channel longer than
    8 bits; and whenever the negotiation of lines 140-211 ends with a
    format that fails one of these conditions, the activation returns the
    error [-EFAULT] at that point. *)
Theorem activate_checks_format (mode : option uterm_mode) (force : bool)
  (s : state World) :
  reachable s ->
  (snd (display_activate_force mode force s) = 0 ->
   let s' := fst (display_activate_force mode force s) in
   supported_format (finfo (fbdev s')) (vinfo (fbdev s')))
  /\ (forall s1,
        video_is_awake s = true ->
        force = true \/ online s = false ->
        mode = None ->
        negotiate s = (s1, Next tt) ->
        ~ supported_format (finfo (fbdev s1)) (vinfo (fbdev s1)) ->
        display_activate_force mode force s = (s1, - EFAULT)).
Proof.
  intros Hreach. apply reachable_invariant in Hreach. split.
  - intros Hr. apply format_ok_supported.
    apply (activate_success mode force s Hreach Hr).
  - intros s1 Ha Hrun -> Hneg Hbad.
    destruct Hreach as (Hv & _).
    rewrite display_activate_force_cases, Hv, Ha. cbn [negb orb].
    assert (Hn : negb force && online s = false).
    { destruct Hrun as [-> | ->]; [reflexivity | apply andb_false_r]. }
    rewrite Hn. unfold exec, activate_body, bind. rewrite Hneg.
    pose proof (bring_online_post s1) as H.
    destruct (bring_online s1) as [s2 [r | c]].
    + destruct H as (_ & Hok & _). apply format_ok_supported in Hok.
      contradiction.
    + destruct H as (_ & _ & H).
      destruct (format_ok (finfo (fbdev s1)) (vinfo (fbdev s1))) eqn:Hok.
      * apply format_ok_supported in Hok. contradiction.
      * destruct (H eq_refl) as [-> ->]. reflexivity.
Qed.

(** C4.  Lines 299-307 of [display_activate_force].  After every
    successful activation the [xrgb32] flag of the display is set exactly
    when the recorded layout has red, green and blue of 8 bits at offsets
    16, 8 and 0 and 4 bytes per pixel. *)
Theorem activate_fast_path_flag (mode : option uterm_mode) (force : bool)
  (s : state World) :
  reachable s ->
  snd (display_activate_force mode force s) = 0 ->
  let b := fbdev (fst (display_activate_force mode force s)) in
  xrgb32 b = true <->
  len_r b = 8 /\ len_g b = 8 /\ len_b b = 8
  /\ off_r b = 16 /\ off_g b = 8 /\ off_b b = 0 /\ Bpp b = 4.
Proof.
  intros Hreach Hr b. apply reachable_invariant in Hreach.
  destruct (activate_success mode force s Hreach Hr) as (_ & Hx & _).
  subst b. rewrite Hx. apply xrgb32_layout_spec.
Qed.

(** A first successful activation attaches one mode, whose size is the
    zero that [mode_init] put there. *)
Lemma first_activation_mode (s : state World) :
  current_mode (disp s) = None ->
  online s = false ->
  snd (display_activate None s) = 0 ->
  let s' := fst (display_activate None s) in
  exists m,
    current_mode (disp s') = Some m
    /\ modes (disp s') = m :: modes (disp s)
    /\ mode_get_width m = 0 /\ mode_get_height m = 0
    /\ xres (fbdev s') = fb_var_screeninfo.xres (vinfo (fbdev s'))
    /\ yres (fbdev s') = fb_var_screeninfo.yres (vinfo (fbdev s')).
Proof.
  intros Hcur Hoff. unfold display_activate.
  rewrite display_activate_force_cases, Hoff.
  destruct (negb (video (disp s)) || negb (video_is_awake s));
    [discriminate |].
  cbn [negb andb]. unfold exec.
  pose proof (activate_body_post s) as H.
  destruct (activate_body s) as [s' [r | c]]; cbn [fst snd].
  - intros _. rewrite Hcur in H.
    destruct H as (_ & _ & _ & _ & _ & _ & _ & _ & _ & Hx & Hy & m & Hm).
    exists m. tauto.
  - destruct H as (_ & _ & _ & Hc & _). intros Hr. contradiction.
Qed.

(** ** Activation when already online *)

(** C8, as amended.  Lines 128-131 of [display_activate_force].  For
    every display that is already Online while its owning system is
    present and awake, activating it again without force returns success
    and changes nothing at all: the buffer region, the flags, the
    environment and the record of calls are as before. *)
Theorem activate_online_noop (mode : option uterm_mode) (s : state World) :
  video (disp s) = true ->
  video_is_awake s = true ->
  online s = true ->
  display_activate mode s = (s, 0).
Proof.
  intros Hv Ha Ho. unfold display_activate.
  rewrite display_activate_force_cases, Hv, Ha, Ho. reflexivity.
Qed.

(** C10.  Lines 128-138 of [display_activate_force].  In an awake system
    an activation without force that asks for a mode succeeds without
    doing anything when the display is already Online, because that test
    comes before the test of the mode; on an Offline display the same
    call fails with [-EINVAL]. *)
Theorem activate_mode_after_online (m : uterm_mode) (s : state World) :
  video (disp s) = true ->
  video_is_awake s = true ->
  (online s = true -> display_activate (Some m) s = (s, 0))
  /\ (online s = false -> display_activate (Some m) s = (s, - EINVAL)).
Proof.
  intros Hv Ha. unfold display_activate.
  rewrite display_activate_force_cases, Hv, Ha.
  split; intros ->; reflexivity.
Qed.

(** ** Deactivation *)

(** X21.  [display_deactivate_force], lines 335-354, on a display of a
    video object whose Online flag is set and whose mapping is live.
    Deactivating without force drops the mode and releases the mapping,
    in that order and with no other call, and leaves no mode, no mapping
    and the flag cleared; deactivating with force only releases the
    mapping and leaves the current mode, the list of modes and the flag
    word, Online included, as they were, which is what [video_wake_up]
    tests to activate the display again.  In neither case does a store go
    through a dead pointer. *)
Theorem deactivate_effects (s : state World) :
  video (disp s) = true ->
  online s = true ->
  mapped s = true ->
  let s1 := display_deactivate_force false s in
  let s2 := display_deactivate_force true s in
  (current_mode (disp s1) = None /\ modes (disp s1) = []
   /\ mapped s1 = false /\ online s1 = false
   /\ trace s1 = Munmap :: ModeUnref :: trace s)
  /\ (mapped s2 = false
      /\ current_mode (disp s2) = current_mode (disp s)
      /\ modes (disp s2) = modes (disp s)
      /\ flags (disp s2) = flags (disp s)
      /\ online s2 = true
      /\ trace s2 = Munmap :: trace s).
Proof.
  intros Hv Ho Hm s1 s2. subst s1 s2.
  rewrite !display_deactivate_force_cases, Hv, Ho. cbn [negb orb].
  rewrite (through_map_live s Hm).
  rewrite (through_map_live
             (upd_disp (set_current_mode None)
                (upd_disp (set_modes []) (log ModeUnref s)))) by exact Hm.
  split.
  - split; [reflexivity |]. split; [reflexivity |].
    split; [reflexivity |]. split; [| reflexivity].
    unfold online. cbn. apply test_clear_same, online_is_flag.
  - split; [reflexivity |]. split; [reflexivity |].
    split; [reflexivity |]. split; [reflexivity |].
    split; [exact Ho | reflexivity].
Qed.

(** Where the Online flag is set and nothing is mapped, the guard of
    line 339 lets the call through all the same, and the [memset] of
    line 349 goes through the dead pointer, whatever [force] is. *)
Lemma deactivate_released (force : bool) (s : state World) :
  video (disp s) = true ->
  online s = true ->
  mapped s = false ->
  exists l,
    trace (display_deactivate_force force s)
    = Munmap :: DeadStore :: l ++ trace s.
Proof.
  intros Hv Ho Hm.
  rewrite display_deactivate_force_cases, Hv, Ho. cbn [negb orb].
  destruct force.
  - rewrite (through_map_dead s Hm). exists nil. reflexivity.
  - rewrite through_map_dead by exact Hm.
    exists (ModeUnref :: nil). reflexivity.
Qed.

(** ** Power states *)

(** What [display_set_dpms] does, lines 361-398: it refuses a display
    without video object or Offline and a state outside the four of the
    [switch]; otherwise the blanking call decides, and only its success
    records the state. *)
Lemma set_dpms_effects (st : Z) (s : state World) :
  (video (disp s) = false \/ online s = false ->
   display_set_dpms st s = (s, - EINVAL))
  /\ (video (disp s) = true -> online s = true ->
      forall set, blank_level st = Some set ->
      let s' := fst (display_set_dpms st s) in
      if snd (ioctl_blank set (world s))
      then snd (display_set_dpms st s) = 0 /\ dpms (disp s') = st
      else snd (display_set_dpms st s) = - EFAULT
           /\ dpms (disp s') = dpms (disp s)).
Proof.
  rewrite display_set_dpms_cases. split.
  - intros [-> | ->]; [reflexivity | rewrite orb_true_r; reflexivity].
  - intros -> -> set ->. cbn [negb orb].
    destruct (ioctl_blank set (world s)) as [w []]; cbn; auto.
Qed.

(** ** Presentation *)

(** C9.  [display_swap], lines 400-413.  On an Online display of an
    awake system without double buffering, presenting leaves the video
    object and its display untouched, the back-buffer index in
    particular; the one call it makes is the scheduling of the vblank
    timer, so no configuration is written to the device; and it returns
    what that scheduling returns. *)
Theorem present_single_buffered (s : state World) :
  video (disp s) = true ->
  video_is_awake s = true ->
  online s = true ->
  double_buffered s = false ->
  let s' := fst (display_swap s) in
  bufid (fbdev s') = bufid (fbdev s)
  /\ uvideo s' = uvideo s
  /\ trace s' = ScheduleVblankTimer :: trace s
  /\ (world s', snd (display_swap s))
     = display_schedule_vblank_timer (world s).
Proof.
  intros Hv Ha Ho Hd. rewrite display_swap_single_buffered by assumption.
  unfold schedule_vblank_timer.
  destruct (display_schedule_vblank_timer (world s)) as [w r].
  repeat split.
Qed.

(** ** Mapping and the Online flag *)

(** C7, as amended.  In every state that a display reaches through
    activate, deactivate, present, setPower, sleep and wakeUp, a buffer
    mapping exists if and only if the Online flag is set as long as the
    owning system is awake; while the system is asleep no mapping
    exists, whatever the flag says. *)
Theorem mapping_iff_online_when_awake (s : state World) :
  reachable s ->
  (video_is_awake s = true -> (mapped s = true <-> online s = true))
  /\ (video_is_awake s = false -> mapped s = false).
Proof.
  intros Hreach. apply reachable_invariant in Hreach.
  destruct Hreach as (_ & Hm & Hs & _). split.
  - intros Ha. rewrite (Hm Ha). tauto.
  - exact Hs.
Qed.

(** * Further properties of the backend *)

(** ** Sleeping and waking *)

Lemma set_clear_flag (f m : Z) :
  is_flag m -> test_flag f m = true -> set_flag (clear_flag f m) m = f.
Proof.
  intros (i & Hi & ->) H. rewrite test_flag_bit in H by exact Hi.
  unfold set_flag, clear_flag. apply Z.bits_inj'. intros n Hn.
  rewrite Z.lor_spec, Z.land_spec, Z.lnot_spec, Z.pow2_bits_eqb by assumption.
  destruct (Z.eqb_spec i n) as [<- |].
  - rewrite H. reflexivity.
  - rewrite andb_true_r, orb_false_r. reflexivity.
Qed.

Lemma set_video_flags_same (s : state World) :
  set_video_flags (video_flags (uvideo s)) s = s.
Proof. destruct s as [[vf d] w t]. reflexivity. Qed.

(** X1.  [video_sleep] then [video_wake_up] on an Offline display of an awake
    system touches no device and gives back exactly the state it started
    from, with success. *)
Theorem sleep_wake_offline_roundtrip (s : state World) :
  video_is_awake s = true ->
  online s = false ->
  video_wake_up (video_sleep s) = (s, 0).
Proof.
  intros Ha Ho.
  rewrite video_sleep_cases, Ha. cbn [negb].
  rewrite display_deactivate_force_cases, Ho, orb_true_r. cbn zeta.
  rewrite video_wake_up_cases.
  unfold video_is_awake at 1. cbn.
  rewrite test_clear_same by flag_facts.
  change (online (awaken (set_video_flags
            (clear_flag (video_flags (uvideo s)) VIDEO_AWAKE) s)))
    with (online s).
  rewrite Ho. unfold awaken. cbn.
  rewrite set_clear_flag by (flag_facts || exact Ha).
  destruct s as [[vf d] w t]. reflexivity.
Qed.

(** X2.  After [video_wake_up] the system is awake exactly when the call
    returned 0: a failed re-activation takes the awake flag back, and
    leaves the Online flag set for the next attempt. *)
Theorem wake_up_awake_iff_success (s : state World) :
  let s' := fst (video_wake_up s) in
  let r := snd (video_wake_up s) in
  (r = 0 -> video_is_awake s' = true)
  /\ (r <> 0 ->
      video_is_awake s' = false /\ video_is_awake s = false
      /\ online s' = true).
Proof.
  cbv zeta. rewrite video_wake_up_cases.
  destruct (video_is_awake s) eqn:Ha.
  { cbn. split; [auto | intros H; contradiction]. }
  assert (Haw : video_is_awake (awaken s) = true).
  { unfold video_is_awake, awaken. cbn. apply test_set_same. flag_facts. }
  destruct (online (awaken s)) eqn:Ho.
  2:{ cbn [fst snd]. split; [auto | intros H; contradiction]. }
  rewrite display_activate_force_cases, Haw. cbn [negb andb].
  rewrite orb_false_r.
  destruct (video (disp (awaken s))) eqn:Hv; cbn [negb].
  - unfold exec. pose proof (activate_body_post (awaken s)) as H.
    destruct (activate_body (awaken s)) as [s1 [r | c]].
    + destruct H as (Hvf & _ & _ & -> & _). cbn.
      apply awake_of_video_flags in Hvf. split; [congruence |].
      intros H; contradiction.
    + destruct H as (_ & _ & _ & Hc & Hon & _).
      unfold nonzero. destruct (Z.eqb_spec c 0) as [-> | _];
        [contradiction |].
      cbn. split; [intros; contradiction |]. intros _.
      unfold video_is_awake. cbn. rewrite test_clear_same by flag_facts.
      repeat split. change (online s1 = true). congruence.
  - cbn. split; [discriminate |]. intros _.
    unfold video_is_awake. cbn. rewrite test_clear_same by flag_facts.
    repeat split. exact Ho.
Qed.

(** X3.  Going to sleep twice is going to sleep once. *)
Theorem sleep_idempotent (s : state World) :
  video_sleep (video_sleep s) = video_sleep s.
Proof.
  rewrite (video_sleep_cases s).
  destruct (video_is_awake s) eqn:Ha; cbn [negb].
  - cbv zeta. rewrite video_sleep_cases.
    unfold video_is_awake at 1. cbn.
    rewrite test_clear_same by flag_facts. reflexivity.
  - rewrite video_sleep_cases, Ha. reflexivity.
Qed.

(** [video_wake_up] of a sleeping system whose display is Online and
    holds no mapping. *)
Lemma wake_up_released (s1 : state World) :
  video (disp s1) = true ->
  video_is_awake s1 = false ->
  online s1 = true ->
  map (fbdev s1) = None ->
  let s' := fst (video_wake_up s1) in
  let r := snd (video_wake_up s1) in
  (r = 0 ->
   video_is_awake s' = true /\ online s' = true /\ mapped s' = true
   /\ forall m, current_mode (disp s1) = Some m ->
                current_mode (disp s') = Some m
                /\ modes (disp s') = modes (disp s1))
  /\ (r <> 0 ->
      video_is_awake s' = false /\ online s' = true /\ mapped s' = false
      /\ current_mode (disp s') = current_mode (disp s1)
      /\ modes (disp s') = modes (disp s1)).
Proof.
  intros Hv Hs1 Ho Hmap. cbv zeta.
  rewrite video_wake_up_cases, Hs1.
  assert (Haw : video_is_awake (awaken s1) = true).
  { unfold video_is_awake, awaken. cbn. apply test_set_same. flag_facts. }
  change (online (awaken s1)) with (online s1). rewrite Ho.
  rewrite display_activate_force_cases, Haw.
  change (video (disp (awaken s1))) with (video (disp s1)). rewrite Hv.
  cbn [negb orb andb].
  unfold exec. pose proof (activate_body_post (awaken s1)) as H.
  change (current_mode (disp (awaken s1))) with (current_mode (disp s1)) in H.
  change (modes (disp (awaken s1))) with (modes (disp s1)) in H.
  change (online (awaken s1)) with (online s1) in H.
  change (map (fbdev (awaken s1))) with (map (fbdev s1)) in H.
  rewrite Hmap in H.
  destruct (activate_body (awaken s1)) as [s2 [r | c]].
  - destruct H as (Hvf & _ & _ & -> & Hon & _ & Hmp & _ & _ & _ & _ & Hmode).
    cbn. apply awake_of_video_flags in Hvf. split; [| intros H; contradiction].
    intros _. repeat split; try congruence.
    + rewrite H in Hmode. apply Hmode.
    + rewrite H in Hmode. apply Hmode.
  - destruct H as (_ & _ & _ & Hc & Hon & _ & Hmp & _ & Hms & Hcm).
    unfold nonzero. destruct (Z.eqb_spec c 0) as [-> | _]; [contradiction |].
    cbn. split; [intros; contradiction |]. intros _.
    unfold video_is_awake, mapped. cbn. rewrite test_clear_same by flag_facts.
    repeat split.
    + change (online s2 = true). congruence.
    + assert (Hnone : map (fbdev s2) = None) by (destruct Hmp; assumption).
      change (fbdev (set_video_flags
                (clear_flag (video_flags (uvideo s2)) VIDEO_AWAKE) s2))
        with (fbdev s2).
      rewrite Hnone. reflexivity.
    + exact Hcm.
    + exact Hms.
Qed.

(** X4.  [video_sleep] then [video_wake_up] on an Online display of an awake
    system.  When the wake-up returns 0 the display is awake, Online and
    mapped again and keeps the mode it had; when it fails the system stays
    asleep, nothing is mapped, and the Online flag and the modes are kept
    for the next wake-up. *)
Theorem sleep_wake_online (s : state World) :
  video (disp s) = true ->
  video_is_awake s = true ->
  online s = true ->
  let s' := fst (video_wake_up (video_sleep s)) in
  let r := snd (video_wake_up (video_sleep s)) in
  (r = 0 ->
   video_is_awake s' = true /\ online s' = true /\ mapped s' = true
   /\ forall m, current_mode (disp s) = Some m ->
                current_mode (disp s') = Some m
                /\ modes (disp s') = modes (disp s))
  /\ (r <> 0 ->
      video_is_awake s' = false /\ online s' = true /\ mapped s' = false
      /\ current_mode (disp s') = current_mode (disp s)
      /\ modes (disp s') = modes (disp s)).
Proof.
  intros Hv Ha Ho.
  assert (Hd : disp (video_sleep s)
               = set_data (set_map None (data (disp s))) (disp s)
            /\ video_is_awake (video_sleep s) = false).
  { rewrite video_sleep_cases, Ha. cbn [negb].
    rewrite display_deactivate_force_cases, Hv, Ho. cbn [negb orb].
    cbv zeta. split.
    - store_cases; reflexivity.
    - store_cases; unfold video_is_awake; cbn;
        apply test_clear_same; flag_facts. }
  destruct Hd as (Hd & Hs1).
  pose proof (wake_up_released (video_sleep s)) as H.
  cbv zeta in H. cbv zeta. unfold online at 1, fbdev at 1 in H.
  rewrite Hd in H.
  apply H; [exact Hv | exact Hs1 | exact Ho | reflexivity].
Qed.

(** ** Deactivation *)

(** X5.  Deactivating twice is deactivating once; the second call finds the
    display Offline and does nothing. *)
Theorem deactivate_idempotent (s : state World) :
  display_deactivate (display_deactivate s) = display_deactivate s.
Proof.
  unfold display_deactivate.
  rewrite (display_deactivate_force_cases false s).
  destruct (negb (video (disp s)) || negb (online s)) eqn:Hg.
  - rewrite display_deactivate_force_cases, Hg. reflexivity.
  - rewrite display_deactivate_force_cases.
    unfold online at 1. cbn. rewrite test_clear_same by flag_facts.
    rewrite orb_true_r. reflexivity.
Qed.

(** ** Failed activations *)

(** X6.  An activation that returns an error, from any state the backend
    reaches, has changed neither the Online flag nor whether a mapping is
    held, and has left the modes, the power state and the awake flag
    alone. *)
Theorem activate_failure_keeps_display (mode : option uterm_mode)
  (s : state World) :
  reachable s ->
  snd (display_activate mode s) <> 0 ->
  let s' := fst (display_activate mode s) in
  online s' = online s /\ mapped s' = mapped s
  /\ modes (disp s') = modes (disp s)
  /\ current_mode (disp s') = current_mode (disp s)
  /\ dpms (disp s') = dpms (disp s)
  /\ video_flags (uvideo s') = video_flags (uvideo s).
Proof.
  intros Hreach. apply reachable_invariant in Hreach.
  unfold display_activate. rewrite display_activate_force_cases.
  destruct (negb (video (disp s)) || negb (video_is_awake s)) eqn:Hg;
    [cbn; auto 10 |].
  cbn [negb andb].
  destruct (online s) eqn:Ho; [cbn; auto 10 |].
  destruct mode; [cbn; auto 10 |].
  apply orb_false_iff in Hg. destruct Hg as [_ Ha]. apply negb_false_iff in Ha.
  destruct Hreach as (_ & Hm & _). specialize (Hm Ha). rewrite Ho in Hm.
  unfold exec. pose proof (activate_body_post s) as H.
  destruct (activate_body s) as [s' [r | c]]; cbn [fst snd].
  - destruct H as (_ & _ & _ & -> & _). intros H; contradiction.
  - intros _.
    destruct H as (Hvf & _ & Hdp & _ & Hon & _ & Hmp & _ & Hms & Hcm).
    repeat split; try congruence.
    rewrite Hm. unfold mapped in *.
    destruct Hmp as [-> | ->]; [assumption | reflexivity].
Qed.

(** ** Presentation *)

(** X7.  [display_swap] with double buffering, lines 415-431.  The device is
    asked, at the next vertical blank, to show the other half of the
    virtual buffer: offset [yres] when buffer 0 is in front, offset 0
    otherwise.  When it accepts, the buffer index is flipped and the
    vblank timer scheduled; when it refuses, the call returns [-EFAULT],
    the index stays, and the timer is not scheduled. *)
Theorem present_double_buffered (s : state World) :
  video (disp s) = true ->
  video_is_awake s = true ->
  online s = true ->
  double_buffered s = true ->
  let b := fbdev s in
  let request :=
    fb_var_screeninfo.set_yoffset (if bufid b =? 0 then u32 (yres b) else 0)
      (fb_var_screeninfo.set_activate FB_ACTIVATE_VBL (vinfo b)) in
  let s' := fst (display_swap s) in
  match snd (ioctl_put_vscreeninfo request (world s)) with
  | Some _ =>
      bufid (fbdev s') = Z.lxor (bufid b) 1
      /\ (bufid b = 0 -> bufid (fbdev s') = 1)
      /\ (bufid b = 1 -> bufid (fbdev s') = 0)
      /\ trace s'
         = ScheduleVblankTimer :: FBIOPUT_VSCREENINFO request :: trace s
  | None =>
      snd (display_swap s) = - EFAULT
      /\ bufid (fbdev s') = bufid b
      /\ trace s' = FBIOPUT_VSCREENINFO request :: trace s
  end.
Proof.
  intros Hv Ha Ho Hd. cbv zeta.
  unfold display_swap, exec, bind, gets, when, return_, ret, modify, invoke,
    ioctl_FBIOPUT_VSCREENINFO, schedule_vblank_timer.
  unfold online, double_buffered in Ho, Hd.
  rewrite Hv, Ha. cbn [negb orb]. rewrite Ho. cbn [negb]. rewrite Hd.
  cbn [negb]. unfold fbdev. cbn.
  destruct (bufid (data (disp s)) =? 0) eqn:Hb; cbn;
    match goal with
    | |- context [ioctl_put_vscreeninfo ?r ?w] =>
        destruct (ioctl_put_vscreeninfo r w) as [w1 [vi |]]
    end; cbn;
    try (destruct (display_schedule_vblank_timer w1) as [w2 r2]; cbn);
    repeat split; try (intros ->; reflexivity).
Qed.

(** X8.  The backend switches double buffering off in every activation
    (line 163), so on every state it reaches an Online display is single
    buffered, and presenting never writes a configuration to the device:
    it leaves the video object and its display alone, and the only call it
    may make is the scheduling of the vblank timer. *)
Theorem present_never_reconfigures (s : state World) :
  reachable s ->
  let s' := fst (display_swap s) in
  (online s = true -> double_buffered s = false)
  /\ uvideo s' = uvideo s
  /\ (trace s' = trace s \/ trace s' = ScheduleVblankTimer :: trace s).
Proof.
  intros Hreach. apply reachable_invariant in Hreach.
  destruct Hreach as (_ & _ & _ & Hdb & _). cbv zeta.
  split; [exact Hdb |].
  destruct (negb (video (disp s)) || negb (video_is_awake s)
            || negb (online s)) eqn:Hg.
  - rewrite display_swap_refused by exact Hg. cbn. auto.
  - apply orb_false_iff in Hg. destruct Hg as [Hg Ho].
    apply orb_false_iff in Hg. destruct Hg as [Hv Ha].
    apply negb_false_iff in Hv, Ha, Ho.
    rewrite display_swap_single_buffered by auto.
    unfold schedule_vblank_timer.
    destruct (display_schedule_vblank_timer (world s)) as [w r]. cbn. auto.
Qed.

(** ** Power states *)

Lemma blank_level_labels :
  blank_level UTERM_DPMS_ON = Some FB_BLANK_UNBLANK
  /\ blank_level UTERM_DPMS_STANDBY = Some FB_BLANK_NORMAL
  /\ blank_level UTERM_DPMS_SUSPEND = Some FB_BLANK_NORMAL
  /\ blank_level UTERM_DPMS_OFF = Some FB_BLANK_POWERDOWN.
Proof.
  pose proof dpms_labels as H.
  inversion_clear H as [| ? ? H1 Ha]. inversion_clear Ha as [| ? ? H2 Hb].
  inversion_clear Hb as [| ? ? H3 _]. cbn in H1, H2, H3.
  unfold blank_level. rewrite !Z.eqb_refl.
  repeat split.
  - destruct (Z.eqb_spec UTERM_DPMS_STANDBY UTERM_DPMS_ON); [tauto |].
    reflexivity.
  - destruct (Z.eqb_spec UTERM_DPMS_SUSPEND UTERM_DPMS_ON); [tauto |].
    destruct (UTERM_DPMS_SUSPEND =? UTERM_DPMS_STANDBY); reflexivity.
  - destruct (Z.eqb_spec UTERM_DPMS_OFF UTERM_DPMS_ON); [tauto |].
    destruct (Z.eqb_spec UTERM_DPMS_OFF UTERM_DPMS_STANDBY); [tauto |].
    destruct (Z.eqb_spec UTERM_DPMS_OFF UTERM_DPMS_SUSPEND); [tauto |].
    reflexivity.
Qed.

(** X9.  [display_set_dpms] on an Online display makes exactly one blanking
    call, whose level is 0 for on, 1 for standby and for suspend alike,
    and 4 for off. *)
Theorem set_dpms_blank_levels (st level : Z) (s : state World) :
  video (disp s) = true ->
  online s = true ->
  In (st, level)
     [(UTERM_DPMS_ON, 0); (UTERM_DPMS_STANDBY, 1);
      (UTERM_DPMS_SUSPEND, 1); (UTERM_DPMS_OFF, 4)] ->
  trace (fst (display_set_dpms st s)) = FBIOBLANK level :: trace s.
Proof.
  intros Hv Ho Hin.
  assert (Hl : blank_level st = Some level).
  { destruct blank_level_labels as (H1 & H2 & H3 & H4).
    cbn in Hin.
    destruct Hin as [E | [E | [E | [E | []]]]]; injection E as <- <-;
      assumption. }
  rewrite display_set_dpms_cases, Hv, Ho, Hl. cbn [negb orb].
  destruct (ioctl_blank level (world s)) as [w []]; reflexivity.
Qed.

(** X10.  The two ways [display_set_dpms] fails on an Online display.  A state
    that is none of on, standby, suspend and off is refused with
    [-EINVAL] before the device is touched; a blanking call that the
    device rejects gives [-EFAULT] and leaves the video object and its
    display, the recorded power state included, as they were. *)
Theorem set_dpms_failures (st : Z) (s : state World) :
  video (disp s) = true ->
  online s = true ->
  (~ In st [UTERM_DPMS_ON; UTERM_DPMS_STANDBY; UTERM_DPMS_SUSPEND;
            UTERM_DPMS_OFF] ->
   display_set_dpms st s = (s, - EINVAL))
  /\ (forall level,
        blank_level st = Some level ->
        snd (ioctl_blank level (world s)) = false ->
        snd (display_set_dpms st s) = - EFAULT
        /\ uvideo (fst (display_set_dpms st s)) = uvideo s
        /\ trace (fst (display_set_dpms st s)) = FBIOBLANK level :: trace s).
Proof.
  intros Hv Ho. rewrite display_set_dpms_cases, Hv, Ho. cbn [negb orb].
  split.
  - intros Hout. cbn in Hout.
    assert (Hn : blank_level st = None).
    { unfold blank_level.
      destruct (Z.eqb_spec st UTERM_DPMS_ON);
        [exfalso; apply Hout; subst; auto |].
      destruct (Z.eqb_spec st UTERM_DPMS_STANDBY);
        [exfalso; apply Hout; subst; auto |].
      destruct (Z.eqb_spec st UTERM_DPMS_SUSPEND);
        [exfalso; apply Hout; subst; auto |].
      destruct (Z.eqb_spec st UTERM_DPMS_OFF);
        [exfalso; apply Hout; subst; auto |].
      reflexivity. }
    rewrite Hn. reflexivity.
  - intros level -> Hrej.
    destruct (ioctl_blank level (world s)) as [w ok]. cbn in Hrej.
    subst ok. repeat split.
Qed.

(** ** The rate model, continued *)

(** X11.  The interval handed to the vblank timer is never shorter than 5 and
    never longer than 1000000 milliseconds, whatever the device
    reports. *)
Theorem vblank_msecs_bounds (v : vinfo_t) :
  5 <= vblank_msecs (monitor_rate v) <= 1000000.
Proof.
  pose proof (monitor_rate_range v) as Hr. unfold vblank_msecs.
  assert (H : 5 <= 1000000 / monitor_rate v <= 1000000).
  { split.
    - apply Z.div_le_lower_bound; lia.
    - apply Z.div_le_upper_bound; lia. }
  rewrite u32_small; [exact H | unfold is_u32; lia].
Qed.

(** X12.  Where nothing wraps, the stored rate is the formula: when the two
    sums fit 32 bits, their product with the pixel clock is positive and
    fits 64 bits, and the quotient fits 32 bits, the rate is
    10^15 divided by the product, brought into 1 to 200000. *)
Theorem monitor_rate_exact (v : vinfo_t) :
  fb_var_screeninfo.wf v ->
  let hsum := fb_var_screeninfo.left_margin v
              + fb_var_screeninfo.right_margin v
              + fb_var_screeninfo.xres v in
  let vsum := fb_var_screeninfo.upper_margin v
              + fb_var_screeninfo.lower_margin v
              + fb_var_screeninfo.yres v in
  let product := vsum * hsum * fb_var_screeninfo.pixclock v in
  hsum < 2 ^ 32 ->
  vsum < 2 ^ 32 ->
  0 < product < 2 ^ 64 ->
  1000000000000000 / product < 2 ^ 32 ->
  monitor_rate v = Z.max 1 (Z.min 200000 (1000000000000000 / product)).
Proof.
  intros Hwf hsum vsum product Hh Hvs Hprod Hq.
  unfold fb_var_screeninfo.wf, is_u32 in Hwf.
  destruct Hwf as (Hx & Hy & Hp & Hl & Hr & Hu & Hd).
  change (2 ^ 32) with 4294967296 in *.
  change (2 ^ 64) with 18446744073709551616 in *.
  assert (Hv' : u32 (u32 (fb_var_screeninfo.upper_margin v
                          + fb_var_screeninfo.lower_margin v)
                     + fb_var_screeninfo.yres v) = vsum).
  { unfold u32. change (2 ^ 32) with 4294967296.
    rewrite (Z.mod_small (fb_var_screeninfo.upper_margin v + _))
      by (subst vsum; lia).
    apply Z.mod_small. subst vsum. lia. }
  assert (Hh' : u32 (u32 (fb_var_screeninfo.left_margin v
                          + fb_var_screeninfo.right_margin v)
                     + fb_var_screeninfo.xres v) = hsum).
  { unfold u32. change (2 ^ 32) with 4294967296.
    rewrite (Z.mod_small (fb_var_screeninfo.left_margin v + _))
      by (subst hsum; lia).
    apply Z.mod_small. subst hsum. lia. }
  assert (Hvh : 0 <= vsum * hsum < 18446744073709551616).
  { assert (0 <= vsum) by (subst vsum; lia).
    assert (0 <= hsum) by (subst hsum; lia).
    split; [apply Z.mul_nonneg_nonneg; assumption |].
    apply Z.lt_le_trans with (4294967296 * 4294967296); [| lia].
    apply Z.mul_lt_mono_nonneg; assumption. }
  assert (Hquot : monitor_quot v = product).
  { unfold monitor_quot. rewrite Hv', Hh'. unfold u64.
    change (2 ^ 64) with 18446744073709551616.
    rewrite (Z.mod_small (vsum * hsum)) by exact Hvh.
    apply Z.mod_small. subst product. lia. }
  unfold monitor_rate. rewrite Hquot.
  unfold nonzero. destruct (Z.eqb_spec product 0) as [E | _]; [lia |].
  cbn [negb].
  assert (Hq0 : 0 <= 1000000000000000 / product) by (apply Z.div_pos; lia).
  rewrite u32_small
    by (unfold is_u32; change (2 ^ 32) with 4294967296; lia).
  destruct (Z.eqb_spec (1000000000000000 / product) 0) as [E | E].
  - rewrite E. reflexivity.
  - destruct (Z.ltb_spec 200000 (1000000000000000 / product)); lia.
Qed.

(** ** Reading the device parameters *)

(** X13.  [refresh_info] returns 0 or [-EFAULT] and changes nothing of the
    display but the two snapshots.  A success has made both reads, in
    order; a failure has left the variable snapshot as it was (the fixed
    one may already be refreshed). *)
Theorem refresh_info_result (s : state World) :
  let s' := fst (refresh_info s) in
  let r := snd (refresh_info s) in
  (r = 0 \/ r = - EFAULT)
  /\ beside_parameters s' = beside_parameters s
  /\ flags (disp s') = flags (disp s)
  /\ (r = 0 ->
      trace s' = FBIOGET_VSCREENINFO :: FBIOGET_FSCREENINFO :: trace s)
  /\ (r <> 0 -> vinfo (fbdev s') = vinfo (fbdev s)).
Proof.
  cbv zeta.
  unfold refresh_info, exec, bind, when, ret, return_,
    ioctl_FBIOGET_FSCREENINFO, ioctl_FBIOGET_VSCREENINFO.
  destruct (ioctl_get_fscreeninfo (world s)) as [w1 [fi |]]; cbn.
  - destruct (ioctl_get_vscreeninfo w1) as [w2 [vi |]]; cbn;
      repeat split; auto; try discriminate; intros H; contradiction.
  - repeat split; auto; discriminate.
Qed.

(** ** What an activation records *)

Lemma record_region_more (l : Z) (b : fbdev_display) :
  bufid (record_region l b) = 0
  /\ len (record_region l b) = l
  /\ stride (record_region l b) = fb_fix_screeninfo.line_length (finfo b)
  /\ yres (record_region l b) = fb_var_screeninfo.yres (vinfo b)
  /\ Bpp (record_region l b) = fb_var_screeninfo.bits_per_pixel (vinfo b) / 8
  /\ len_r (record_region l b)
     = fb_bitfield.length (fb_var_screeninfo.red (vinfo b))
  /\ len_g (record_region l b)
     = fb_bitfield.length (fb_var_screeninfo.green (vinfo b))
  /\ len_b (record_region l b)
     = fb_bitfield.length (fb_var_screeninfo.blue (vinfo b))
  /\ rate (record_region l b) = rate b
  /\ pending_intro (record_region l b) = pending_intro b
  /\ map (record_region l b) = map b.
Proof.
  unfold record_region.
  match goal with |- context [if ?c then _ else _] => destruct c end;
    repeat split.
Qed.

Lemma recorded_record_region (b : fbdev_display) :
  format_ok (finfo b) (vinfo b) = true ->
  1 <= rate b <= 200000 ->
  recorded
    (record_region
       (u32 (fb_fix_screeninfo.line_length (finfo b)
             * fb_var_screeninfo.yres (vinfo b))) b).
Proof.
  intros Hok Hrate. apply format_ok_supported in Hok.
  destruct Hok as (Hbpp & _ & Hr & Hg & Hb).
  destruct (record_region_more
              (u32 (fb_fix_screeninfo.line_length (finfo b)
                    * fb_var_screeninfo.yres (vinfo b))) b)
    as (_ & Hl & Hs & Hy & HB & Hlr & Hlg & Hlb & Hrt & _).
  unfold recorded. rewrite Hl, Hs, Hy, HB, Hlr, Hlg, Hlb, Hrt.
  repeat split; try assumption; try apply Hrate.
  destruct Hbpp as [-> | ->]; [left | right]; reflexivity.
Qed.

(** The second half of an activation on a single-buffered display. *)
Lemma bring_online_recorded (s : state World) :
  double_buffered s = false ->
  match bring_online s with
  | (s', Next _) =>
      recorded (fbdev s')
      /\ bufid (fbdev s') = 0
      /\ map (fbdev s') = Some {| map_len := len (fbdev s') |}
      /\ rate (fbdev s') = monitor_rate (vinfo (fbdev s))
      /\ pending_intro (fbdev s') = pending_intro (fbdev s)
      /\ exists l,
           trace s'
           = l ++ SetVblankTimer (vblank_msecs (rate (fbdev s'))) :: trace s
  | (s', Return _) =>
      (recorded (fbdev s) -> recorded (fbdev s'))
      /\ (bufid (fbdev s) = 0 -> bufid (fbdev s') = 0)
      /\ (map (fbdev s') = None \/ fbdev s' = fbdev s)
      /\ pending_intro (fbdev s') = pending_intro (fbdev s)
      /\ grows s s'
  end.
Proof.
  intros Hdb.
  unfold bring_online. unfold bind at 1. rewrite check_format_post.
  destruct (format_ok _ _) eqn:Hok.
  2:{ split; [tauto |]. split; [tauto |]. split; [right; reflexivity |].
      split; [reflexivity |]. exists nil. reflexivity. }
  unfold set_monitor_rate, map_buffer, mmap, attach_mode, mode_new,
    mode_init, malloc, munmap.
  unfold bind, gets, when, return_, ret, modify.
  cbn -[record_region].
  unfold double_buffered in Hdb. rewrite Hdb.
  set (l := u32 _).
  pose proof (monitor_rate_range (vinfo (data (disp s)))) as Hrate.
  match goal with
  | |- context [sys_mmap l ?w] => destruct (sys_mmap l w) as [w1 []]
  end; cbn -[record_region].
  2:{ split.
      { unfold recorded, fbdev. cbn. tauto. }
      split; [tauto |]. split; [left; reflexivity |].
      split; [reflexivity |].
      eexists (_ :: _ :: nil). reflexivity. }
  set (b1 := set_map (Some {| map_len := l |})
               (set_rate (monitor_rate (vinfo (data (disp s))))
                  (data (disp s)))).
  assert (Hrec : recorded (record_region l b1)).
  { apply (recorded_record_region b1); [exact Hok | exact Hrate]. }
  destruct (record_region_more l b1)
    as (Hbuf & Hlen & _ & _ & _ & _ & _ & _ & Hrt & Hpi & Hmap).
  assert (Hmap1 : map (record_region l b1)
                  = Some {| map_len := len (record_region l b1) |}).
  { rewrite Hmap, Hlen. reflexivity. }
  destruct (current_mode (disp s)) as [m |] eqn:Hcur; cbn -[record_region].
  - unfold fbdev. cbn -[record_region]. fold b1.
    split; [exact Hrec |]. split; [exact Hbuf |]. split; [exact Hmap1 |].
    split; [exact Hrt |]. split; [exact Hpi |].
    rewrite Hrt. eexists (_ :: nil). reflexivity.
  - destruct (sys_malloc w1) as [w2 []]; cbn -[record_region].
    + destruct (sys_malloc w2) as [w3 []]; cbn -[record_region].
      * unfold fbdev. cbn -[record_region]. fold b1.
        split; [exact Hrec |]. split; [exact Hbuf |]. split; [exact Hmap1 |].
        split; [exact Hrt |]. split; [exact Hpi |].
        rewrite Hrt. eexists (_ :: _ :: nil). reflexivity.
      * unfold fbdev, grows. cbn -[record_region]. fold b1.
        split; [intros _; exact Hrec |]. split; [intros _; exact Hbuf |].
        split; [left; reflexivity |]. split; [exact Hpi |].
        eexists (_ :: _ :: _ :: _ :: nil). reflexivity.
    + unfold fbdev, grows. cbn -[record_region]. fold b1.
      split; [intros _; exact Hrec |]. split; [intros _; exact Hbuf |].
      split; [left; reflexivity |]. split; [exact Hpi |].
      eexists (_ :: _ :: _ :: _ :: nil). reflexivity.
Qed.

Lemma region_eq_fields (b b' : fbdev_display) :
  region b' = region b ->
  pending_intro b' = pending_intro b /\ bufid b' = bufid b
  /\ map b' = map b /\ len b' = len b
  /\ (recorded b -> recorded b').
Proof.
  unfold region, recorded. intros H.
  injection H as -> -> -> _ -> -> -> -> _ -> _ -> _ -> _ -> _ _ _.
  repeat split; tauto.
Qed.

Lemma grows_refl (s : state World) : grows s s.
Proof. exists nil. reflexivity. Qed.

Lemma grows_trans (a b c : state World) : grows a b -> grows b c -> grows a c.
Proof.
  intros [l1 H1] [l2 H2]. exists (l2 ++ l1).
  rewrite H2, H1. apply app_assoc.
Qed.

Lemma grows_same (s s' : state World) : trace s' = trace s -> grows s s'.
Proof. intros H. exists nil. exact H. Qed.

Lemma grows_log (c : call) (s s' : state World) :
  trace s' = c :: trace s -> grows s s'.
Proof. intros H. exists (c :: nil). exact H. Qed.

Create HintDb grows.

Ltac grows_step :=
  first
    [ solve [auto with grows]
    | apply ensures_bind; [exact grows_trans | | intros ?]
    | apply ensures_when; [exact grows_refl | intros ?]
    | apply ensures_return; [exact grows_refl | exact I]
    | apply ensures_ret; exact grows_refl
    | apply ensures_gets; exact grows_refl
    | apply ensures_modify; intros ?; apply grows_same; reflexivity
    | apply ensures_invoke ].

Lemma grows_get_fscreeninfo :
  ensures ioctl_FBIOGET_FSCREENINFO grows (fun _ => True).
Proof.
  intros s. unfold ioctl_FBIOGET_FSCREENINFO.
  destruct (ioctl_get_fscreeninfo (world s)) as [w [fi |]];
    eapply grows_log; reflexivity.
Qed.

Lemma grows_get_vscreeninfo :
  ensures ioctl_FBIOGET_VSCREENINFO grows (fun _ => True).
Proof.
  intros s. unfold ioctl_FBIOGET_VSCREENINFO.
  destruct (ioctl_get_vscreeninfo (world s)) as [w [vi |]];
    eapply grows_log; reflexivity.
Qed.

Lemma grows_put_vscreeninfo :
  ensures ioctl_FBIOPUT_VSCREENINFO grows (fun _ => True).
Proof.
  intros s. unfold ioctl_FBIOPUT_VSCREENINFO.
  destruct (ioctl_put_vscreeninfo (vinfo (fbdev s)) (world s)) as [w [vi |]];
    eapply grows_log; reflexivity.
Qed.

#[local] Hint Resolve grows_get_fscreeninfo grows_get_vscreeninfo
  grows_put_vscreeninfo : grows.

Lemma grows_refresh_info (s : state World) : grows s (fst (refresh_info s)).
Proof.
  unfold refresh_info.
  apply (ensures_exec grows (fun _ => True)).
  repeat grows_step.
Qed.

#[local] Hint Resolve grows_refresh_info : grows.

Lemma grows_try_depths (ds : list Z) :
  ensures (try_depths ds) grows (fun _ => True).
Proof.
  induction ds as [| d ds IH]; cbn [try_depths].
  - apply ensures_ret. exact grows_refl.
  - destruct (d =? 0); [apply ensures_ret; exact grows_refl |].
    repeat grows_step.
    destruct (_ <? 0); [exact IH |].
    repeat grows_step.
    destruct (_ =? FB_VISUAL_TRUECOLOR);
      [apply ensures_ret; exact grows_refl | exact IH].
Qed.

#[local] Hint Resolve grows_try_depths : grows.

Lemma grows_negotiate : ensures negotiate grows (fun _ => True).
Proof.
  unfold negotiate, request_buffers, apply_and_negotiate.
  repeat grows_step.
Qed.

(** X14.  An activation that gets past its guards and succeeds has stored a
    rate within the clamps, computed from the parameters it ends with,
    and has handed the interval derived from that rate to the vblank
    timer during the call. *)
Theorem activation_sets_vblank_timer (force : bool) (s : state World) :
  video (disp s) = true ->
  video_is_awake s = true ->
  force = true \/ online s = false ->
  snd (display_activate_force None force s) = 0 ->
  let s' := fst (display_activate_force None force s) in
  rate (fbdev s') = monitor_rate (vinfo (fbdev s'))
  /\ 1 <= rate (fbdev s') <= 200000
  /\ exists before after,
       trace s'
       = after ++ SetVblankTimer (vblank_msecs (rate (fbdev s')))
                  :: before ++ trace s.
Proof.
  intros Hv Ha Hrun. rewrite display_activate_force_cases, Hv, Ha.
  cbn [negb orb].
  assert (Hn : negb force && online s = false).
  { destruct Hrun as [-> | ->]; [reflexivity | apply andb_false_r]. }
  rewrite Hn. unfold exec, activate_body, bind.
  pose proof (negotiate_post s) as H1. pose proof (grows_negotiate s) as G1.
  destruct (negotiate s) as [s1 [[] | c]].
  2:{ destruct H1 as (_ & _ & _ & Hc). cbn. intros; contradiction. }
  destruct H1 as (_ & _ & Hdb). destruct G1 as [before Hbefore].
  pose proof (bring_online_recorded s1 Hdb) as H2.
  pose proof (bring_online_post s1) as H3.
  destruct (bring_online s1) as [s2 [r | c]].
  2:{ destruct H3 as (Hc & _). cbn. intros; contradiction. }
  cbn. intros _.
  destruct H2 as (_ & _ & _ & Hrate & _ & after & Hafter).
  destruct H3 as (_ & _ & _ & Hvi & _).
  split; [congruence |].
  split; [rewrite Hrate; apply monitor_rate_range |].
  exists before, after. rewrite Hafter, Hbefore. reflexivity.
Qed.

(** ** The structure of the display *)

Lemma activate_body_structure (s : state World) :
  structure_invariant s ->
  structure_invariant (fst (activate_body s))
  /\ pending_intro (fbdev (fst (activate_body s))) = pending_intro (fbdev s).
Proof.
  intros (Hbuf & Hrec & Hmap & Hmodes & Hcur).
  pose proof (activate_body_post s) as P.
  unfold activate_body, bind in *.
  pose proof (negotiate_post s) as H1.
  destruct (negotiate s) as [s1 [[] | c]].
  - destruct H1 as (Hb & Ho & Hdb).
    assert (Hreg : region (fbdev s1) = region (fbdev s)).
    { unfold beside_parameters in Hb. apply (f_equal snd) in Hb.
      exact Hb. }
    apply region_eq_fields in Hreg.
    destruct Hreg as (Hpi1 & Hbuf1 & Hmap1 & Hlen1 & Hrec1).
    pose proof (bring_online_recorded s1 Hdb) as H2.
    destruct (bring_online s1) as [s2 [r | c]]; cbn [fst].
    + destruct P as (_ & _ & _ & _ & Hon & _ & _ & _ & _ & _ & _ & Hmode).
      destruct H2 as (Hr2 & Hb2 & Hm2 & _ & Hpi2 & _).
      split; [| congruence].
      split; [exact Hb2 |]. split; [intros _; exact Hr2 |].
      split. { intros m Hm. rewrite Hm2 in Hm. injection Hm as <-. reflexivity. }
      destruct (current_mode (disp s)) as [m |].
      * destruct Hmode as [-> ->]. split; [exact Hmodes | discriminate].
      * destruct Hmode as (m & -> & -> & _). rewrite Hmodes.
        split; [reflexivity | discriminate].
    + destruct P as (_ & _ & _ & _ & Hon & _ & _ & _ & Hms & Hcm).
      destruct H2 as (Hr2 & Hb2 & Hm2 & Hpi2 & _).
      split; [| congruence].
      split; [apply Hb2; congruence |].
      split. { intros Ho2. apply Hr2, Hrec1, Hrec. congruence. }
      split.
      { intros m Hm. destruct Hm2 as [Hn | He].
        - rewrite Hn in Hm. discriminate.
        - rewrite He in *. rewrite Hlen1. apply Hmap. congruence. }
      rewrite Hms, Hcm. split; [exact Hmodes |].
      intros Ho2. apply Hcur. congruence.
  - destruct H1 as (Hb & Ho & _).
    destruct P as (_ & _ & _ & _ & _ & _ & _ & _ & Hms & Hcm).
    assert (Hreg : region (fbdev s1) = region (fbdev s)).
    { unfold beside_parameters in Hb. apply (f_equal snd) in Hb.
      exact Hb. }
    apply region_eq_fields in Hreg.
    destruct Hreg as (Hpi1 & Hbuf1 & Hmap1 & Hlen1 & Hrec1).
    cbn [fst]. split; [| exact Hpi1].
    split; [congruence |].
    split. { intros Ho1. apply Hrec1, Hrec. congruence. }
    split. { intros m Hm. rewrite Hlen1. apply Hmap. congruence. }
    rewrite Hms, Hcm. split; [exact Hmodes |].
    intros Ho1. apply Hcur. congruence.
Qed.

Lemma activate_force_structure (mode : option uterm_mode) (force : bool)
  (s : state World) :
  structure_invariant s ->
  structure_invariant (fst (display_activate_force mode force s))
  /\ pending_intro (fbdev (fst (display_activate_force mode force s)))
     = pending_intro (fbdev s).
Proof.
  intros Hs. rewrite display_activate_force_cases.
  destruct (negb (video (disp s)) || negb (video_is_awake s)); [auto |].
  destruct (negb force && online s); [auto |].
  destruct mode; [auto |].
  unfold exec. pose proof (activate_body_structure s Hs) as H.
  destruct (activate_body s) as [s' [r | c]]; exact H.
Qed.

Lemma structure_uvideo (s s' : state World) :
  uvideo s' = uvideo s -> structure_invariant s -> structure_invariant s'.
Proof.
  unfold structure_invariant, online, fbdev, disp. intros ->.
  exact (fun H => H).
Qed.

Lemma run_structure (o : operation) (s : state World) :
  invariant s ->
  structure_invariant s ->
  structure_invariant (run o s)
  /\ pending_intro (fbdev (run o s)) = pending_intro (fbdev s)
  /\ video (disp (run o s)) = video (disp s).
Proof.
  intros Hinv Hs. pose proof (invariant_run o s Hinv) as Hinv'.
  assert (Hvideo : video (disp (run o s)) = video (disp s)).
  { destruct Hinv as (-> & _). destruct Hinv' as (-> & _). reflexivity. }
  split; [| split; [| exact Hvideo]]; clear Hvideo Hinv';
    destruct o; cbn [run].
  - apply (activate_force_structure mode false s Hs).
  - unfold display_deactivate. rewrite display_deactivate_force_cases.
    destruct (negb (video (disp s)) || negb (online s)); [exact Hs |].
    destruct Hs as (Hbuf & _).
    store_cases; unfold structure_invariant, online; cbn;
      rewrite test_clear_same by flag_facts;
      (split; [exact Hbuf |]); (split; [discriminate |]);
      (split; [intros m Hm; discriminate Hm |]);
      (split; [reflexivity | discriminate]).
  - destruct Hinv as (_ & _ & _ & Hdb & _).
    destruct (negb (video (disp s)) || negb (video_is_awake s)
              || negb (online s)) eqn:Hg.
    + rewrite display_swap_refused by exact Hg. exact Hs.
    + apply orb_false_iff in Hg. destruct Hg as [Hg Ho].
      apply orb_false_iff in Hg. destruct Hg as [Hv Ha].
      apply negb_false_iff in Hv, Ha, Ho.
      rewrite display_swap_single_buffered by auto.
      eapply structure_uvideo; [apply schedule_vblank_timer_state | exact Hs].
  - rewrite display_set_dpms_cases.
    destruct (negb (video (disp s)) || negb (online s)); [exact Hs |].
    destruct (blank_level st) as [set |]; [| exact Hs].
    destruct (ioctl_blank set (world s)) as [w []]; exact Hs.
  - rewrite video_sleep_cases.
    destruct (negb (video_is_awake s)); [exact Hs |]. cbv zeta.
    rewrite display_deactivate_force_cases.
    destruct (negb (video (disp s)) || negb (online s)); [exact Hs |].
    destruct Hs as (Hbuf & Hrec & _ & Hmodes & Hcur).
    store_cases;
      (split; [exact Hbuf |]); (split; [exact Hrec |]);
      (split; [intros m Hm; discriminate Hm |]);
      (split; [exact Hmodes | exact Hcur]).
  - rewrite video_wake_up_cases.
    destruct (video_is_awake s); [exact Hs |].
    destruct (online (awaken s)); [| exact Hs].
    pose proof (activate_force_structure None true (awaken s) Hs) as [H _].
    destruct (display_activate_force None true (awaken s)) as [s1 r].
    destruct (nonzero r); exact H.
  - apply (activate_force_structure mode false s Hs).
  - unfold display_deactivate. rewrite display_deactivate_force_cases.
    destruct (negb (video (disp s)) || negb (online s));
      [reflexivity | store_cases; reflexivity].
  - destruct Hinv as (_ & _ & _ & Hdb & _).
    destruct (negb (video (disp s)) || negb (video_is_awake s)
              || negb (online s)) eqn:Hg.
    + rewrite display_swap_refused by exact Hg. reflexivity.
    + apply orb_false_iff in Hg. destruct Hg as [Hg Ho].
      apply orb_false_iff in Hg. destruct Hg as [Hv Ha].
      apply negb_false_iff in Hv, Ha, Ho.
      rewrite display_swap_single_buffered by auto.
      unfold fbdev, disp. rewrite schedule_vblank_timer_state. reflexivity.
  - rewrite display_set_dpms_cases.
    destruct (negb (video (disp s)) || negb (online s)); [reflexivity |].
    destruct (blank_level st) as [set |]; [| reflexivity].
    destruct (ioctl_blank set (world s)) as [w []]; reflexivity.
  - rewrite video_sleep_cases.
    destruct (negb (video_is_awake s)); [reflexivity |]. cbv zeta.
    rewrite display_deactivate_force_cases.
    destruct (negb (video (disp s)) || negb (online s));
      [reflexivity | store_cases; reflexivity].
  - rewrite video_wake_up_cases.
    destruct (video_is_awake s); [reflexivity |].
    destruct (online (awaken s)); [| reflexivity].
    pose proof (activate_force_structure None true (awaken s) Hs) as [_ H].
    destruct (display_activate_force None true (awaken s)) as [s1 r].
    destruct (nonzero r); exact H.
Qed.

Lemma structure_init (vflags dflags : Z) (w : World) :
  test_flag dflags DISPLAY_ONLINE = false ->
  structure_invariant (video_init vflags dflags w).
Proof.
  intros Hoff. unfold structure_invariant, online. cbn. rewrite Hoff.
  split; [reflexivity |]. split; [discriminate |].
  split; [intros m Hm; discriminate Hm |].
  split; [reflexivity | discriminate].
Qed.

Lemma reachable_structure (s : state World) :
  reachable s -> structure_invariant s.
Proof.
  induction 1 as [vflags dflags w Hoff | s o Hr IH].
  - apply structure_init. exact Hoff.
  - apply run_structure; [apply reachable_invariant; exact Hr | exact IH].
Qed.

(** X15.  In every state the backend reaches, an Online display has a recorded
    buffer: 2 or 4 bytes per pixel, channels of at most 8 bits, a rate
    between 1 and 200000 milli-Hertz, buffer 0 in front, and a length of
    stride times height as [unsigned int], which is also the length of
    the mapping whenever one is held. *)
Theorem online_buffer_recorded (s : state World) :
  reachable s ->
  online s = true ->
  let b := fbdev s in
  (Bpp b = 2 \/ Bpp b = 4)
  /\ len_r b <= 8 /\ len_g b <= 8 /\ len_b b <= 8
  /\ 1 <= rate b <= 200000
  /\ bufid b = 0
  /\ len b = u32 (stride b * yres b)
  /\ forall m, map b = Some m -> map_len m = u32 (stride b * yres b).
Proof.
  intros Hreach Ho b. apply reachable_structure in Hreach.
  destruct Hreach as (Hbuf & Hrec & Hmap & _).
  destruct (Hrec Ho) as (Hlen & HB & Hr & Hg & Hb & Hrate).
  subst b. repeat split; try assumption; try apply Hrate.
  intros m Hm. rewrite <- Hlen. apply Hmap. exact Hm.
Qed.

(** X16.  In every state the backend reaches, the display has at most one
    mode, which is its current mode; and an Online display has one. *)
Theorem one_mode_per_display (s : state World) :
  reachable s ->
  (List.length (modes (disp s)) <= 1)%nat
  /\ modes (disp s)
     = match current_mode (disp s) with Some m => [m] | None => [] end
  /\ (online s = true ->
      exists m, current_mode (disp s) = Some m /\ modes (disp s) = [m]).
Proof.
  intros Hreach. apply reachable_structure in Hreach.
  destruct Hreach as (_ & _ & _ & Hmodes & Hcur).
  split; [| split; [exact Hmodes |]].
  - rewrite Hmodes. destruct (current_mode (disp s)); cbn; auto.
  - intros Ho. specialize (Hcur Ho).
    destruct (current_mode (disp s)) as [m |]; [| contradiction].
    exists m. split; [reflexivity | exact Hmodes].
Qed.

(** ** The depth loop *)

Lemma requested_depths_app (l1 l2 : list call) :
  requested_depths (l1 ++ l2) = requested_depths l1 ++ requested_depths l2.
Proof.
  induction l1 as [| c l1 IH]; [reflexivity |].
  destruct c; cbn; rewrite ?IH; reflexivity.
Qed.

Lemma refresh_info_requests (s : state World) :
  exists l,
    trace (fst (refresh_info s)) = l ++ trace s /\ requested_depths l = [].
Proof.
  unfold refresh_info, exec, bind, when, ret, return_,
    ioctl_FBIOGET_FSCREENINFO, ioctl_FBIOGET_VSCREENINFO.
  destruct (ioctl_get_fscreeninfo (world s)) as [w1 [fi |]]; cbn.
  - destruct (ioctl_get_vscreeninfo w1) as [w2 [vi |]]; cbn;
      exists [FBIOGET_VSCREENINFO; FBIOGET_FSCREENINFO]; split; reflexivity.
  - exists [FBIOGET_FSCREENINFO]. split; reflexivity.
Qed.

Lemma try_depths_requests (ds : list Z) :
  forall s,
    exists l k,
      trace (fst (try_depths ds s)) = l ++ trace s
      /\ rev (requested_depths l) = firstn k (live_depths ds)
      /\ (live_depths ds <> [] -> k <> 0%nat).
Proof.
  induction ds as [| d ds IH]; intros s; cbn [try_depths live_depths].
  - exists nil, 0%nat. repeat split. intros H. contradiction.
  - destruct (d =? 0).
    { exists nil, 0%nat. repeat split. intros H. contradiction. }
    unfold bind at 1 2 3. unfold modify at 1 2. cbn [fst snd].
    unfold ioctl_FBIOPUT_VSCREENINFO at 1.
    set (s0 := upd_vinfo _ (upd_vinfo _ s)).
    assert (Hbpp : fb_var_screeninfo.bits_per_pixel (vinfo (fbdev s0)) = d)
      by reflexivity.
    assert (Htr : trace s0 = trace s) by reflexivity.
    destruct (ioctl_put_vscreeninfo (vinfo (fbdev s0)) (world s0))
      as [w1 [vi |]]; cbn [negb Z.ltb Z.compare].
    + (* accepted: read back, then break, return or go on *)
      set (s1 := upd_fbdev (set_vinfo vi) _).
      assert (Htr1 : trace s1 = FBIOPUT_VSCREENINFO (vinfo (fbdev s0))
                                  :: trace s) by reflexivity.
      unfold bind, invoke, when, gets, return_, ret.
      destruct (refresh_info_requests s1) as (lr & Hlr & Hnone).
      destruct (refresh_info s1) as [s2 r]. cbn [fst] in Hlr.
      destruct (nonzero r).
      { exists (lr ++ [FBIOPUT_VSCREENINFO (vinfo (fbdev s0))]), 1%nat.
        cbn [fst]. split; [rewrite Hlr, Htr1, <- app_assoc; reflexivity |].
        rewrite requested_depths_app, Hnone.
        cbn [requested_depths app rev firstn]. rewrite Hbpp.
        split; [reflexivity | discriminate]. }
      destruct (_ =? FB_VISUAL_TRUECOLOR).
      { exists (lr ++ [FBIOPUT_VSCREENINFO (vinfo (fbdev s0))]), 1%nat.
        cbn [fst]. split; [rewrite Hlr, Htr1, <- app_assoc; reflexivity |].
        rewrite requested_depths_app, Hnone.
        cbn [requested_depths app rev firstn]. rewrite Hbpp.
        split; [reflexivity | discriminate]. }
      destruct (IH s2) as (l & k & Hl & Hk & _).
      exists (l ++ lr ++ [FBIOPUT_VSCREENINFO (vinfo (fbdev s0))]), (S k).
      split; [rewrite Hl, Hlr, Htr1, <- !app_assoc; reflexivity |].
      rewrite !requested_depths_app, Hnone.
      cbn [requested_depths app].
      rewrite rev_app_distr. cbn [requested_depths app rev firstn].
      rewrite Hbpp, Hk.
      split; [reflexivity | discriminate].
    + (* refused: next depth *)
      set (s1 := log _ _).
      assert (Htr1 : trace s1 = FBIOPUT_VSCREENINFO (vinfo (fbdev s0))
                                  :: trace s) by reflexivity.
      destruct (IH s1) as (l & k & Hl & Hk & _).
      exists (l ++ [FBIOPUT_VSCREENINFO (vinfo (fbdev s0))]), (S k).
      split; [rewrite Hl, Htr1, <- app_assoc; reflexivity |].
      rewrite requested_depths_app.
      rewrite rev_app_distr. cbn [requested_depths app rev firstn].
      rewrite Hbpp, Hk.
      split; [reflexivity | discriminate].
Qed.

(** X17.  The loop of lines 195-210 over the table [{ 32, 16, 0 }] asks the
    device for 32 bits per pixel, then possibly for 16, and for no other
    depth: in the order of the calls, the depths of the configuration
    writes it makes are 32, or 32 and then 16. *)
Theorem depth_negotiation_order (s : state World) :
  exists l,
    trace (fst (try_depths depths s)) = l ++ trace s
    /\ (rev (requested_depths l) = [32]
        \/ rev (requested_depths l) = [32; 16]).
Proof.
  destruct (try_depths_requests depths s) as (l & k & Hl & Hk & Hne).
  exists l. split; [exact Hl |].
  cbn in Hk, Hne.
  destruct k as [| [| k]].
  - exfalso. apply Hne; [discriminate | reflexivity].
  - left. exact Hk.
  - right. rewrite Hk. destruct k; reflexivity.
Qed.
End Properties.

(** * The properties on the concrete devices *)

Lemma hd1080_init_reachable : reachable hd1080_init.
Proof. apply reach_init. reflexivity. Qed.

Lemma hd1080_online_reachable : reachable hd1080_online.
Proof. apply reach_run, hd1080_init_reachable. Qed.

Lemma hd1080_asleep_reachable : reachable hd1080_asleep.
Proof. apply reach_run, hd1080_online_reachable. Qed.

Lemma palette8_init_reachable : reachable palette8_init.
Proof. apply reach_init. reflexivity. Qed.

(** C1.  Lines 312-324 of [display_activate_force], evaluated on the
    first activation of the 1920x1080 device.  The activation succeeds and
    the display then has exactly one mode, but the width and height that
    this mode reports are 0, not the 1920 and 1080 of the buffer region:
    the stores of lines 321-322 go through [fbdev_mode], which was never
    made to point at the data of the new mode. *)
Theorem first_activation_mode_size_lost :
  let s' := fst (display_activate None hd1080_init) in
  snd (display_activate None hd1080_init) = 0
  /\ List.length (modes (disp s')) = 1%nat
  /\ current_mode (disp s') = hd_error (modes (disp s'))
  /\ xres (fbdev s') = 1920 /\ yres (fbdev s') = 1080
  /\ option_map mode_get_width (current_mode (disp s')) = Some 0
  /\ option_map mode_get_height (current_mode (disp s')) = Some 0.
Proof. vm_compute. repeat split. Qed.

(** The rate model on the timings of the 1920x1080 device. *)
Lemma rate_model_sound_witness :
  fb_var_screeninfo.wf (dev_var hd1080)
  /\ 1 <= monitor_rate (dev_var hd1080) <= 200000
  /\ vblank_msecs (monitor_rate (dev_var hd1080))
     = Qfloor (1000 / (inject_Z (monitor_rate (dev_var hd1080)) / 1000))%Q.
Proof.
  assert (Hwf : fb_var_screeninfo.wf (dev_var hd1080)).
  { unfold fb_var_screeninfo.wf, is_u32. cbn. lia. }
  split; [exact Hwf |].
  destruct (rate_model_sound (dev_var hd1080) Hwf) as (Hr & _ & _ & Hv).
  split; [exact Hr | exact Hv].
Defined.

(** The format checks on the two devices: the true-color one is
    activated with a supported format, the palette one is refused. *)
Lemma activate_checks_format_witness :
  reachable hd1080_init
  /\ snd (display_activate_force None false hd1080_init) = 0
  /\ supported_format (finfo (fbdev hd1080_online))
                      (vinfo (fbdev hd1080_online))
  /\ reachable palette8_init
  /\ negotiate palette8_init = (fst (negotiate palette8_init), Next tt)
  /\ display_activate_force None false palette8_init
     = (fst (negotiate palette8_init), - EFAULT).
Proof.
  split; [exact hd1080_init_reachable |].
  split; [vm_compute; reflexivity |].
  split.
  - apply (proj1 (activate_checks_format None false hd1080_init
                    hd1080_init_reachable)).
    vm_compute; reflexivity.
  - split; [exact palette8_init_reachable |].
    split; [vm_compute; reflexivity |].
    apply (proj2 (activate_checks_format None false palette8_init
                    palette8_init_reachable)).
    + vm_compute; reflexivity.
    + right. vm_compute; reflexivity.
    + reflexivity.
    + vm_compute; reflexivity.
    + intros (_ & Hvisual & _). discriminate Hvisual.
Defined.

(** The fast-path flag after the first activation of the 1920x1080
    device. *)
Lemma activate_fast_path_flag_witness :
  reachable hd1080_init
  /\ snd (display_activate_force None false hd1080_init) = 0
  /\ (xrgb32 (fbdev hd1080_online) = true <->
      len_r (fbdev hd1080_online) = 8 /\ len_g (fbdev hd1080_online) = 8
      /\ len_b (fbdev hd1080_online) = 8 /\ off_r (fbdev hd1080_online) = 16
      /\ off_g (fbdev hd1080_online) = 8 /\ off_b (fbdev hd1080_online) = 0
      /\ Bpp (fbdev hd1080_online) = 4).
Proof.
  split; [exact hd1080_init_reachable |].
  split; [vm_compute; reflexivity |].
  apply (activate_fast_path_flag None false hd1080_init hd1080_init_reachable).
  vm_compute; reflexivity.
Defined.

(** Both deactivations of the activated 1920x1080 display. *)
Lemma deactivate_effects_witness :
  video (disp hd1080_online) = true
  /\ online hd1080_online = true
  /\ mapped hd1080_online = true
  /\ mapped (display_deactivate_force false hd1080_online) = false
  /\ online (display_deactivate_force false hd1080_online) = false
  /\ mapped (display_deactivate_force true hd1080_online) = false
  /\ online (display_deactivate_force true hd1080_online) = true.
Proof.
  assert (Hv : video (disp hd1080_online) = true) by (vm_compute; reflexivity).
  assert (Ho : online hd1080_online = true) by (vm_compute; reflexivity).
  assert (Hm : mapped hd1080_online = true) by (vm_compute; reflexivity).
  destruct (deactivate_effects hd1080_online Hv Ho Hm)
    as ((_ & _ & Hm1 & Ho1 & _) & (Hm2 & _ & _ & _ & Ho2 & _)).
  split; [exact Hv |]. split; [exact Ho |]. split; [exact Hm |].
  split; [exact Hm1 |]. split; [exact Ho1 |].
  split; [exact Hm2 | exact Ho2].
Defined.

(** C5.  [display_deactivate_force], lines 335-354, evaluated on the
    1920x1080 display after it was activated and the system then went to
    sleep.  [video_sleep] has released the mapping and kept the Online
    flag, so the guard of line 339 lets [display_deactivate] through, and
    the [memset] of line 349 stores through the released mapping before
    [munmap] is called on it a second time.  ([display_swap] and
    [display_activate] test [video_is_awake] and return [-EINVAL] in the
    same state.) *)
Theorem deactivate_while_asleep :
  reachable hd1080_asleep
  /\ video (disp hd1080_asleep) = true
  /\ online hd1080_asleep = true
  /\ video_is_awake hd1080_asleep = false
  /\ mapped hd1080_asleep = false
  /\ trace (display_deactivate hd1080_asleep)
     = Munmap :: DeadStore :: ModeUnref :: trace hd1080_asleep
  /\ snd (display_swap hd1080_asleep) = - EINVAL
  /\ snd (display_activate None hd1080_asleep) = - EINVAL.
Proof.
  split; [exact hd1080_asleep_reachable |].
  repeat split; vm_compute; reflexivity.
Qed.

(** C6.  [display_set_dpms], lines 361-367, evaluated on the 1920x1080
    display after it was activated and the system then went to sleep.
    The system is asleep, and yet the call is not refused: the blanking
    request goes to the device, the call returns 0 and the state is
    recorded.  ([display_swap] in the same state returns [-EINVAL].) *)
Theorem set_dpms_while_asleep :
  let s' := fst (display_set_dpms UTERM_DPMS_OFF hd1080_asleep) in
  video_is_awake hd1080_asleep = false
  /\ snd (display_set_dpms UTERM_DPMS_OFF hd1080_asleep) = 0
  /\ dpms (disp s') = UTERM_DPMS_OFF
  /\ trace s' = FBIOBLANK FB_BLANK_POWERDOWN :: trace hd1080_asleep
  /\ snd (display_swap hd1080_asleep) = - EINVAL.
Proof. vm_compute. repeat split. Qed.

(** Against C7 as stated: after an activation and [video_sleep] the
    display is reachable, its Online flag is set, and nothing is mapped. *)
Lemma online_flag_without_mapping :
  reachable hd1080_asleep
  /\ online hd1080_asleep = true
  /\ mapped hd1080_asleep = false
  /\ ~ (mapped hd1080_asleep = true <-> online hd1080_asleep = true).
Proof.
  split; [exact hd1080_asleep_reachable |].
  split; [vm_compute; reflexivity |].
  split; [vm_compute; reflexivity |].
  intros [_ H]. assert (Ho : online hd1080_asleep = true) by (vm_compute; reflexivity).
  apply H in Ho. vm_compute in Ho. discriminate Ho.
Qed.

(** Mapping and Online flag of the activated display, awake and then
    asleep. *)
Lemma mapping_iff_online_when_awake_witness :
  reachable hd1080_online
  /\ video_is_awake hd1080_online = true
  /\ (mapped hd1080_online = true <-> online hd1080_online = true)
  /\ reachable hd1080_asleep
  /\ video_is_awake hd1080_asleep = false
  /\ mapped hd1080_asleep = false.
Proof.
  split; [exact hd1080_online_reachable |].
  split; [vm_compute; reflexivity |].
  split.
  - apply (proj1 (mapping_iff_online_when_awake hd1080_online
                    hd1080_online_reachable)).
    vm_compute; reflexivity.
  - split; [exact hd1080_asleep_reachable |].
    split; [vm_compute; reflexivity |].
    apply (proj2 (mapping_iff_online_when_awake hd1080_asleep
                    hd1080_asleep_reachable)).
    vm_compute; reflexivity.
Defined.

(** Against C8 as stated: the display is Online (activated before the
    system went to sleep), and activating it again without force is
    refused with [-EINVAL] instead of succeeding. *)
Lemma activate_online_asleep_refused :
  reachable hd1080_asleep
  /\ online hd1080_asleep = true
  /\ display_activate None hd1080_asleep = (hd1080_asleep, - EINVAL).
Proof.
  split; [exact hd1080_asleep_reachable |].
  split; vm_compute; reflexivity.
Qed.

(** A second activation of the activated display. *)
Lemma activate_online_noop_witness :
  video (disp hd1080_online) = true
  /\ video_is_awake hd1080_online = true
  /\ online hd1080_online = true
  /\ display_activate None hd1080_online = (hd1080_online, 0).
Proof.
  split; [vm_compute; reflexivity |].
  split; [vm_compute; reflexivity |].
  split; [vm_compute; reflexivity |].
  apply (activate_online_noop None hd1080_online); vm_compute; reflexivity.
Defined.

(** Asking for a mode on the display after and before its activation. *)
Lemma activate_mode_after_online_witness :
  video (disp hd1080_online) = true
  /\ video_is_awake hd1080_online = true
  /\ online hd1080_online = true
  /\ display_activate (Some vga_mode) hd1080_online = (hd1080_online, 0)
  /\ video (disp hd1080_init) = true
  /\ video_is_awake hd1080_init = true
  /\ online hd1080_init = false
  /\ display_activate (Some vga_mode) hd1080_init = (hd1080_init, - EINVAL).
Proof.
  split; [vm_compute; reflexivity |].
  split; [vm_compute; reflexivity |].
  split; [vm_compute; reflexivity |].
  split.
  - apply (activate_mode_after_online vga_mode hd1080_online);
      vm_compute; reflexivity.
  - split; [vm_compute; reflexivity |].
    split; [vm_compute; reflexivity |].
    split; [vm_compute; reflexivity |].
    apply (activate_mode_after_online vga_mode hd1080_init);
      vm_compute; reflexivity.
Defined.

(** Presenting on the activated display. *)
Lemma present_single_buffered_witness :
  video (disp hd1080_online) = true
  /\ video_is_awake hd1080_online = true
  /\ online hd1080_online = true
  /\ double_buffered hd1080_online = false
  /\ bufid (fbdev (fst (display_swap hd1080_online)))
     = bufid (fbdev hd1080_online)
  /\ trace (fst (display_swap hd1080_online))
     = ScheduleVblankTimer :: trace hd1080_online.
Proof.
  split; [vm_compute; reflexivity |].
  split; [vm_compute; reflexivity |].
  split; [vm_compute; reflexivity |].
  split; [vm_compute; reflexivity |].
  assert (H : video (disp hd1080_online) = true
              /\ video_is_awake hd1080_online = true
              /\ online hd1080_online = true
              /\ double_buffered hd1080_online = false)
    by (vm_compute; repeat split).
  destruct H as (Hv & Ha & Ho & Hd).
  destruct (present_single_buffered hd1080_online Hv Ha Ho Hd)
    as (Hb & _ & Ht & _).
  split; [exact Hb | exact Ht].
Defined.

(** * The lifecycle glue *)

Section LifecycleProperties.

Context {World : Type} {env : Environment World} {host : Host World}
  {consts : Constants}.

(** X18.  However [video_init] fails, it returns a code other than 0, it has
    announced nothing, and it has not taken the idle callback off the
    event loop; when it succeeds the backend holds the display exactly as
    created: awaiting its announcement, with no mode and no mapping, and
    with the one registration of the idle callback behind it. *)
Theorem video_init_outcomes (vflags : Z) (w : World) :
  match video_init_call vflags w with
  | InitFailed code _ done =>
      code <> 0
      /\ ~ In UnregisterIdle done
      /\ forall a, ~ In (Announce a) done
  | InitDone b =>
      notices b = [RegisterIdle 0]
      /\ pending_intro (fbdev (core b)) = true
      /\ video (disp (core b)) = true
      /\ dpms (disp (core b)) = UTERM_DPMS_UNKNOWN
      /\ modes (disp (core b)) = []
      /\ mapped (core b) = false
      /\ trace (core b) = []
  end.
Proof.
  unfold video_init_call.
  destruct (sys_malloc w) as [w1 []]; cbn [negb].
  2:{ cbn. repeat split; auto; discriminate. }
  destruct (host_display_new w1) as [w2 [ret dflags]].
  destruct (nonzero ret) eqn:Hret.
  { apply nonzero_neq in Hret. cbn. repeat split; auto. }
  destruct (host_register_idle_cb w2) as [w3 reg].
  destruct (nonzero reg) eqn:Hreg.
  { apply nonzero_neq in Hreg. cbn. repeat split; auto.
    - intros [H | [H | []]]; discriminate H.
    - intros a [H | [H | []]]; discriminate H. }
  assert (Hreg0 : reg = 0).
  { unfold nonzero in Hreg. apply negb_false_iff, Z.eqb_eq in Hreg.
    exact Hreg. }
  subst reg.
  destruct (host_strdup w3) as [w4 []]; cbn [negb].
  2:{ destruct (host_register_idle_cb w4) as [w5 again]. cbn.
      repeat split; try discriminate.
      - intros [H | [H | [H | []]]]; discriminate H.
      - intros a [H | [H | [H | []]]]; discriminate H. }
  destruct (host_open w4) as [w5 fd].
  destruct (fd <? 0).
  { destruct (host_register_idle_cb w5) as [w6 again]. cbn.
    repeat split; try discriminate.
    - intros [H | [H | [H | []]]]; discriminate H.
    - intros a [H | [H | [H | []]]]; discriminate H. }
  cbn. repeat split.
Qed.

Lemma intro_idle_event_clears (b : backend World) :
  pending_intro (fbdev (core (intro_idle_event b))) = false.
Proof.
  unfold intro_idle_event.
  destruct (pending_intro (fbdev (core b))) eqn:Hp; cbn [negb];
    [| exact Hp].
  cbv zeta.
  destruct (negb (video (disp (upd_fbdev (set_pending_intro false)
                                 (core b))))); reflexivity.
Qed.

(** X19.  The idle callback announces the display at most once: it does so
    only while the announcement is pending, it ends that, and running it
    again changes nothing. *)
Theorem intro_idle_event_once (b : backend World) :
  intro_idle_event (intro_idle_event b) = intro_idle_event b
  /\ pending_intro (fbdev (core (intro_idle_event b))) = false
  /\ (pending_intro (fbdev (core b)) = false -> intro_idle_event b = b).
Proof.
  pose proof (intro_idle_event_clears b) as Hc.
  split; [| split; [exact Hc |]].
  - remember (intro_idle_event b) as b1 eqn:Hb1.
    unfold intro_idle_event. rewrite Hc. reflexivity.
  - intros Hp. unfold intro_idle_event. rewrite Hp. reflexivity.
Qed.

Lemma operate_keeps (o : operation) (b : backend World) :
  invariant (core b) -> structure_invariant (core b) ->
  let b' := lifecycle_run (Operate o) b in
  pending_intro (fbdev (core b')) = pending_intro (fbdev (core b))
  /\ notices b' = notices b
  /\ invariant (core b') /\ structure_invariant (core b').
Proof.
  intros Hi Hs. cbn.
  destruct (run_structure o (core b) Hi Hs) as (Hs' & Hp & _).
  split; [exact Hp |]. split; [reflexivity |].
  split; [apply invariant_run; exact Hi | exact Hs'].
Qed.

Lemma announced_stays (steps : list lifecycle_step) :
  forall b, announced b -> announced (lifecycle steps b).
Proof.
  induction steps as [| x steps IH]; intros b Hb; [exact Hb |].
  cbn [lifecycle fold_left]. apply IH.
  destruct Hb as (Hp & Hn & Hi & Hs). destruct x as [| o].
  - cbn [lifecycle_run]. unfold intro_idle_event. rewrite Hp. cbn [negb].
    exact (conj Hp (conj Hn (conj Hi Hs))).
  - destruct (operate_keeps o b Hi Hs) as (Hp' & Hn' & Hi' & Hs').
    split; [congruence |]. split; [congruence |].
    split; assumption.
Qed.

Lemma awaiting_runs (steps : list lifecycle_step) :
  forall b,
    awaiting b ->
    if existsb is_idle_event steps
    then announced (lifecycle steps b)
    else awaiting (lifecycle steps b).
Proof.
  induction steps as [| x steps IH]; intros b Hb; [exact Hb |].
  cbn [lifecycle fold_left existsb].
  destruct Hb as (Hp & Hn & Hi & Hs). destruct x as [| o]; cbn [is_idle_event orb].
  - apply announced_stays.
    cbn [lifecycle_run]. unfold intro_idle_event. rewrite Hp. cbn [negb].
    cbv zeta. destruct Hi as (Hv & Hi).
    change (video (disp (upd_fbdev (set_pending_intro false) (core b))))
      with (video (disp (core b))).
    rewrite Hv. cbn [negb].
    split; [reflexivity |]. split; [cbn; rewrite Hn; reflexivity |].
    split; [exact (conj Hv Hi) | exact Hs].
  - apply IH.
    destruct (operate_keeps o b Hi Hs) as (Hp' & Hn' & Hi' & Hs').
    split; [congruence |]. split; [congruence |].
    split; assumption.
Qed.

Lemma video_init_call_done (vflags : Z) (w : World) (b : backend World) :
  video_init_call vflags w = InitDone b ->
  exists dflags w',
    b = {| core := video_init vflags dflags w';
           notices := [RegisterIdle 0] |}.
Proof.
  unfold video_init_call. intros Hinit.
  destruct (sys_malloc w) as [w1 []]; [| discriminate].
  destruct (host_display_new w1) as [w2 [ret dflags]].
  cbn [negb] in Hinit.
  destruct (nonzero ret); [discriminate |].
  destruct (host_register_idle_cb w2) as [w3 reg].
  destruct (nonzero reg) eqn:Hreg; [discriminate |].
  assert (Hreg0 : reg = 0).
  { unfold nonzero in Hreg. apply negb_false_iff, Z.eqb_eq in Hreg.
    exact Hreg. }
  subst reg.
  destruct (host_strdup w3) as [w4 []];
    [| cbn in Hinit; destruct (host_register_idle_cb w4); discriminate].
  cbn [negb] in Hinit.
  destruct (host_open w4) as [w5 fd].
  destruct (fd <? 0);
    [destruct (host_register_idle_cb w5); discriminate |].
  injection Hinit as <-. exists dflags, w5. reflexivity.
Qed.

(** X20.  From [video_init] to [video_destroy], whatever the owning system
    does with the display in between and however often the event loop
    runs the idle callback: the display is reported gone exactly when it
    had been announced, which is exactly when the idle callback ran; and
    the idle callback registered by [video_init] is taken off the event
    loop exactly once, by the callback itself or else by
    [video_destroy]. *)
Theorem destroy_reports_what_was_announced (vflags : Z) (w : World)
  (b : backend World) (steps : list lifecycle_step) :
  video_init_call vflags w = InitDone b ->
  online (core b) = false ->
  video_destroy (lifecycle steps b)
  = if existsb is_idle_event steps
    then [UnrefDisplay; Close; Announce UTERM_GONE; Announce UTERM_NEW;
          UnregisterIdle; RegisterIdle 0]
    else [UnrefDisplay; Close; UnregisterIdle; RegisterIdle 0].
Proof.
  intros Hinit Hoff.
  assert (Hb : awaiting b).
  { destruct (video_init_call_done vflags w b Hinit) as (dflags & w' & ->).
    cbn [core] in *.
    assert (Hd : test_flag dflags DISPLAY_ONLINE = false) by exact Hoff.
    split; [reflexivity |]. split; [reflexivity |].
    split; [apply invariant_init | apply structure_init]; exact Hd. }
  pose proof (awaiting_runs steps b Hb) as H.
  unfold video_destroy.
  destruct (existsb is_idle_event steps).
  - destruct H as (-> & -> & _). reflexivity.
  - destruct H as (-> & -> & _). reflexivity.
Qed.

End LifecycleProperties.

(** * The further properties on the concrete devices *)

(** Sleep and wake-up of the display before its activation. *)
Lemma sleep_wake_offline_roundtrip_witness :
  video_is_awake hd1080_init = true
  /\ online hd1080_init = false
  /\ video_wake_up (video_sleep hd1080_init) = (hd1080_init, 0).
Proof.
  split; [vm_compute; reflexivity |].
  split; [vm_compute; reflexivity |].
  apply (sleep_wake_offline_roundtrip hd1080_init); vm_compute; reflexivity.
Defined.

(** Sleep and wake-up of the activated display. *)
Lemma sleep_wake_online_witness :
  video (disp hd1080_online) = true
  /\ video_is_awake hd1080_online = true
  /\ online hd1080_online = true
  /\ snd (video_wake_up (video_sleep hd1080_online)) = 0
  /\ mapped (fst (video_wake_up (video_sleep hd1080_online))) = true.
Proof.
  assert (Hv : video (disp hd1080_online) = true) by (vm_compute; reflexivity).
  assert (Ha : video_is_awake hd1080_online = true)
    by (vm_compute; reflexivity).
  assert (Ho : online hd1080_online = true) by (vm_compute; reflexivity).
  assert (Hr : snd (video_wake_up (video_sleep hd1080_online)) = 0)
    by (vm_compute; reflexivity).
  split; [exact Hv |]. split; [exact Ha |]. split; [exact Ho |].
  split; [exact Hr |].
  apply (proj1 (sleep_wake_online hd1080_online Hv Ha Ho) Hr).
Defined.

(** The refused activation of the palette device. *)
Lemma activate_failure_keeps_display_witness :
  reachable palette8_init
  /\ snd (display_activate None palette8_init) <> 0
  /\ online (fst (display_activate None palette8_init))
     = online palette8_init
  /\ mapped (fst (display_activate None palette8_init))
     = mapped palette8_init.
Proof.
  assert (Hf : snd (display_activate None palette8_init) <> 0)
    by (vm_compute; discriminate).
  split; [exact palette8_init_reachable |]. split; [exact Hf |].
  destruct (activate_failure_keeps_display None palette8_init
              palette8_init_reachable Hf) as (H1 & H2 & _).
  split; [exact H1 | exact H2].
Defined.

(** A flip of the double-buffered display: buffer 1 comes to the front. *)
Lemma present_double_buffered_witness :
  video (disp hd1080_double) = true
  /\ video_is_awake hd1080_double = true
  /\ online hd1080_double = true
  /\ double_buffered hd1080_double = true
  /\ bufid (fbdev (fst (display_swap hd1080_double))) = 1.
Proof.
  assert (Hv : video (disp hd1080_double) = true) by (vm_compute; reflexivity).
  assert (Ha : video_is_awake hd1080_double = true)
    by (vm_compute; reflexivity).
  assert (Ho : online hd1080_double = true) by (vm_compute; reflexivity).
  assert (Hd : double_buffered hd1080_double = true)
    by (vm_compute; reflexivity).
  split; [exact Hv |]. split; [exact Ha |]. split; [exact Ho |].
  split; [exact Hd |].
  generalize (present_double_buffered hd1080_double Hv Ha Ho Hd).
  vm_compute. intros (_ & H & _). apply H. reflexivity.
Defined.

(** Presenting on the activated display. *)
Lemma present_never_reconfigures_witness :
  reachable hd1080_online
  /\ uvideo (fst (display_swap hd1080_online)) = uvideo hd1080_online.
Proof.
  split; [exact hd1080_online_reachable |].
  apply (present_never_reconfigures hd1080_online hd1080_online_reachable).
Defined.

(** Suspending the activated display. *)
Lemma set_dpms_blank_levels_witness :
  video (disp hd1080_online) = true
  /\ online hd1080_online = true
  /\ trace (fst (display_set_dpms UTERM_DPMS_SUSPEND hd1080_online))
     = FBIOBLANK 1 :: trace hd1080_online.
Proof.
  split; [vm_compute; reflexivity |].
  split; [vm_compute; reflexivity |].
  apply (set_dpms_blank_levels UTERM_DPMS_SUSPEND 1 hd1080_online).
  - vm_compute; reflexivity.
  - vm_compute; reflexivity.
  - right. right. left. reflexivity.
Defined.

(** A power state that does not exist, on the activated display. *)
Lemma set_dpms_failures_witness :
  video (disp hd1080_online) = true
  /\ online hd1080_online = true
  /\ display_set_dpms 9 hd1080_online = (hd1080_online, - EINVAL).
Proof.
  assert (Hv : video (disp hd1080_online) = true) by (vm_compute; reflexivity).
  assert (Ho : online hd1080_online = true) by (vm_compute; reflexivity).
  split; [exact Hv |]. split; [exact Ho |].
  apply (proj1 (set_dpms_failures 9 hd1080_online Hv Ho)).
  intros [H | [H | [H | [H | []]]]]; discriminate H.
Defined.

(** The rate of the 1920x1080 timings, where nothing wraps. *)
Lemma monitor_rate_exact_witness :
  fb_var_screeninfo.wf (dev_var hd1080)
  /\ monitor_rate (dev_var hd1080)
     = Z.max 1 (Z.min 200000
                  (1000000000000000 / ((41 + 4 + 1080) * (192 + 88 + 1920)
                                       * 6734))).
Proof.
  assert (Hwf : fb_var_screeninfo.wf (dev_var hd1080)).
  { unfold fb_var_screeninfo.wf, is_u32. cbn. lia. }
  split; [exact Hwf |].
  apply (monitor_rate_exact (dev_var hd1080) Hwf).
  - vm_compute; reflexivity.
  - vm_compute; reflexivity.
  - split; vm_compute; reflexivity.
  - vm_compute; reflexivity.
Defined.

(** The first activation of the 1920x1080 display. *)
Lemma activation_sets_vblank_timer_witness :
  video (disp hd1080_init) = true
  /\ video_is_awake hd1080_init = true
  /\ online hd1080_init = false
  /\ snd (display_activate_force None false hd1080_init) = 0
  /\ 1 <= rate (fbdev hd1080_online) <= 200000.
Proof.
  assert (Hv : video (disp hd1080_init) = true) by (vm_compute; reflexivity).
  assert (Ha : video_is_awake hd1080_init = true) by (vm_compute; reflexivity).
  assert (Ho : online hd1080_init = false) by (vm_compute; reflexivity).
  assert (Hr : snd (display_activate_force None false hd1080_init) = 0)
    by (vm_compute; reflexivity).
  split; [exact Hv |]. split; [exact Ha |]. split; [exact Ho |].
  split; [exact Hr |].
  apply (activation_sets_vblank_timer false hd1080_init Hv Ha
           (or_intror Ho) Hr).
Defined.

(** The buffer of the activated display. *)
Lemma online_buffer_recorded_witness :
  reachable hd1080_online
  /\ online hd1080_online = true
  /\ bufid (fbdev hd1080_online) = 0
  /\ len (fbdev hd1080_online)
     = u32 (stride (fbdev hd1080_online) * yres (fbdev hd1080_online)).
Proof.
  assert (Ho : online hd1080_online = true) by (vm_compute; reflexivity).
  split; [exact hd1080_online_reachable |]. split; [exact Ho |].
  destruct (online_buffer_recorded hd1080_online hd1080_online_reachable Ho)
    as (_ & _ & _ & _ & _ & Hb & Hl & _).
  split; [exact Hb | exact Hl].
Defined.

(** The modes of the activated display. *)
Lemma one_mode_per_display_witness :
  reachable hd1080_online
  /\ (List.length (modes (disp hd1080_online)) <= 1)%nat.
Proof.
  split; [exact hd1080_online_reachable |].
  apply (one_mode_per_display hd1080_online hd1080_online_reachable).
Defined.

(** A life of the 1920x1080 backend in which the idle callback ran. *)
Lemma destroy_reports_what_was_announced_witness :
  video_init_call VIDEO_AWAKE hd1080 = InitDone hd1080_backend
  /\ online (core hd1080_backend) = false
  /\ video_destroy (lifecycle hd1080_life hd1080_backend)
     = [UnrefDisplay; Close; Announce UTERM_GONE; Announce UTERM_NEW;
        UnregisterIdle; RegisterIdle 0].
Proof.
  assert (Hi : video_init_call VIDEO_AWAKE hd1080 = InitDone hd1080_backend)
    by (vm_compute; reflexivity).
  assert (Ho : online (core hd1080_backend) = false)
    by (vm_compute; reflexivity).
  split; [exact Hi |]. split; [exact Ho |].
  exact (destroy_reports_what_was_announced VIDEO_AWAKE hd1080
           hd1080_backend hd1080_life Hi Ho).
Defined.
